(** * Monday.com -> ElevenLabs bridge: a shallow embedding of the services

    The development follows the three source files:
    - [services/monday.js]     (module [Monday]): webhook normalisation,
      column classification, phone and e-mail extraction;
    - [services/elevenlabs.js] (module [ElevenLabs]): call preparation,
      call initiation with its simulation fallback;
    - [server.js]              (module [Server]): the HTTP handlers.

    Module [JS] holds the fragment of JavaScript the code relies on: values
    as [JSON.parse] yields them, truthiness, property access, string
    coercion, the string methods used, and a small regular-expression
    matcher. *)

From Stdlib Require Import String Ascii List ZArith Bool Lia DecimalString.
Import ListNotations.

Open Scope string_scope.

Set Warnings "-register-all".

(* ================================================================== *)
(** * JavaScript fragment *)
(* ================================================================== *)

Module JS.

(** ** Characters and strings

    A JavaScript string is a sequence of UTF-16 code units.  The model keeps
    the code units below 256 (an [ascii] stands for the code unit with the
    same number), which covers ASCII and Latin-1. *)

Definition code (c : ascii) : nat := nat_of_ascii c.

Definition in_range (lo hi : nat) (c : ascii) : bool :=
  (lo <=? code c)%nat && (code c <=? hi)%nat.

(** [\d] : the ten ASCII digits. *)
Definition is_digit (c : ascii) : bool := in_range 48 57 c.

(** [\s] restricted to code units below 256: TAB, LF, VT, FF, CR, SPACE and
    NO-BREAK SPACE. *)
Definition is_space (c : ascii) : bool :=
  in_range 9 13 c || (code c =? 32)%nat || (code c =? 160)%nat.

(** [String.prototype.toLowerCase] on one code unit: A-Z, and the Latin-1
    capitals U+00C0..U+00DE except the multiplication sign U+00D7. *)
Definition lower_char (c : ascii) : ascii :=
  if in_range 65 90 c || (in_range 192 222 c && negb (code c =? 215)%nat)
  then ascii_of_nat (code c + 32)
  else c.

Fixpoint map_string (f : ascii -> ascii) (s : string) : string :=
  match s with
  | EmptyString => EmptyString
  | String c s' => String (f c) (map_string f s')
  end.

Fixpoint filter_string (p : ascii -> bool) (s : string) : string :=
  match s with
  | EmptyString => EmptyString
  | String c s' => if p c then String c (filter_string p s')
                   else filter_string p s'
  end.

Fixpoint forallb_string (p : ascii -> bool) (s : string) : bool :=
  match s with
  | EmptyString => true
  | String c s' => p c && forallb_string p s'
  end.

Definition toLowerCase (s : string) : string := map_string lower_char s.

(** [s.startsWith(p)] *)
Definition startsWith (s p : string) : bool := String.prefix p s.

(** [s.includes(k)] : [k] occurs in [s] as a substring. *)
Fixpoint includes (s k : string) : bool :=
  String.prefix k s ||
  match s with
  | EmptyString => false
  | String _ s' => includes s' k
  end.

(** Decimal rendering of integers, as [Number.prototype.toString] gives it
    for integral values. *)
Definition string_of_Z (z : Z) : string := NilZero.string_of_int (Z.to_int z).
Definition string_of_nat (n : nat) : string :=
  NilZero.string_of_uint (Nat.to_uint n).

(** ** Values

    The values the handlers see come out of a JSON parser (request bodies,
    API responses) or are built by the code from such values.  [JObj] lists
    the own properties of an object in the order [Object.keys] reports
    them, with pairwise distinct keys.

    A number is kept by its rendering, the string ToString gives for it
    (["77"], ["1.5"], ["1e+21"]): the code observes a number only through
    ToString, ToBoolean and comparison with zero, and the rendering of a
    number determines all three (both zeros render as ["0"], and only
    they and ["NaN"] are falsy). *)

Inductive jsval : Type :=
| JUndefined
| JNull
| JBool (b : bool)
| JNumber (rendering : string)
| JStr (s : string)
| JArr (l : list jsval)
| JObj (l : list (string * jsval)).

(** The number with the integral value [n], for the integers that render
    in plain decimal (array lengths, identifiers, clock readings). *)
Definition JNum (n : Z) : jsval := JNumber (string_of_Z n).

(** ToBoolean *)
Definition truthy (v : jsval) : bool :=
  match v with
  | JUndefined | JNull => false
  | JBool b => b
  | JNumber t => negb ((t =? "0") || (t =? "NaN"))
  | JStr s => negb (s =? "")
  | JArr _ | JObj _ => true
  end.

(** [a || b] *)
Definition or_else (a b : jsval) : jsval := if truthy a then a else b.
Infix "|||" := or_else (at level 50, left associativity).

Definition nullish (v : jsval) : bool :=
  match v with
  | JUndefined | JNull => true
  | _ => false
  end.

Definition is_string (v : jsval) : bool :=
  match v with JStr _ => true | _ => false end.

(** [v === s] for a string literal [s]. *)
Definition strict_eq_str (v : jsval) (s : string) : bool :=
  match v with JStr t => (t =? s) | _ => false end.

(** [v === n] for a number literal [n]. *)
Definition strict_eq_num (v : jsval) (n : Z) : bool :=
  match v with JNumber t => (t =? string_of_Z n) | _ => false end.

Fixpoint assoc (k : string) (l : list (string * jsval)) : jsval :=
  match l with
  | [] => JUndefined
  | (k', v) :: l' => if k' =? k then v else assoc k l'
  end.

(** The index a property name denotes in a sequence of length [n], if any:
    the name has to be the canonical decimal form of an index below [n]. *)
Fixpoint index_of_name (name : string) (n : nat) : option nat :=
  match n with
  | O => None
  | S m => if string_of_nat m =? name then Some m else index_of_name name m
  end.

(** [v?.name] : property read that yields [undefined] on [undefined] and
    [null].  Only data properties are looked up: the names the services
    read are not methods of any prototype, [length] and indices apart. *)
Definition opt_get (v : jsval) (name : string) : jsval :=
  match v with
  | JObj l => assoc name l
  | JArr l =>
      if name =? "length" then JNum (Z.of_nat (List.length l))
      else match index_of_name name (List.length l) with
           | Some i => nth i l JUndefined
           | None => JUndefined
           end
  | JStr s =>
      if name =? "length" then JNum (Z.of_nat (String.length s))
      else match index_of_name name (String.length s) with
           | Some i => match String.get i s with
                       | Some c => JStr (String c EmptyString)
                       | None => JUndefined
                       end
           | None => JUndefined
           end
  | _ => JUndefined
  end.

(** [Object.keys(v)] for a value that is neither [undefined] nor [null]. *)
Definition keys (v : jsval) : list string :=
  match v with
  | JObj l => map fst l
  | JArr l => map string_of_nat (seq 0 (List.length l))
  | JStr s => map string_of_nat (seq 0 (String.length s))
  | _ => []
  end.

(** ** Exceptions

    What a [throw] carries: the services read only [error.message].  A
    [TypeError] raised by the engine has an engine-chosen message; the model
    fixes none and takes it not to contain the words the code searches (see
    [message_includes]). *)

Inductive exn : Type :=
| TypeError
| Error (message : string).

Inductive Res (A : Type) : Type :=
| Ok (a : A)
| Throw (e : exn).
Arguments Ok {A} a.
Arguments Throw {A} e.

Definition rbind {A B} (m : Res A) (f : A -> Res B) : Res B :=
  match m with
  | Ok a => f a
  | Throw e => Throw e
  end.

(** [try { m } catch (e) { return h e }] for code without other effects. *)
Definition rcatch {A} (m : Res A) (h : exn -> A) : A :=
  match m with
  | Ok a => a
  | Throw e => h e
  end.

(** An own property of that name. *)
Definition has_own (l : list (string * jsval)) (name : string) : bool :=
  existsb (fun kv => fst kv =? name) l.

(** ToString.  Arrays join the renderings of their elements with commas,
    [null] and [undefined] elements rendering as the empty string.  An
    object renders as ["[object Object]"] through the inherited method,
    unless it has a [toString] property of its own: that property is data,
    not a function, no primitive value results and the conversion throws
    a [TypeError]. *)
Fixpoint toString (v : jsval) : Res string :=
  match v with
  | JUndefined => Ok "undefined"
  | JNull => Ok "null"
  | JBool true => Ok "true"
  | JBool false => Ok "false"
  | JNumber t => Ok t
  | JStr s => Ok s
  | JArr l =>
      (fix join (l : list jsval) : Res string :=
         match l with
         | [] => Ok ""
         | x :: rest =>
             rbind (if nullish x then Ok "" else toString x) (fun a =>
             match rest with
             | [] => Ok a
             | _ :: _ => rbind (join rest) (fun b => Ok (a ++ "," ++ b))
             end)
         end) l
  | JObj props =>
      if has_own props "toString" then Throw TypeError
      else Ok "[object Object]"
  end.

(** [v.name] : throws on [undefined] and [null]. *)
Definition get (v : jsval) (name : string) : Res jsval :=
  if nullish v then Throw TypeError else Ok (opt_get v name).

(** A method of [String.prototype] called on [v]: any other receiver has no
    such function, and the call throws. *)
Definition as_string (v : jsval) : Res string :=
  match v with
  | JStr s => Ok s
  | _ => Throw TypeError
  end.

(** A method of [Array.prototype] called on [v]. *)
Definition as_array (v : jsval) : Res (list jsval) :=
  match v with
  | JArr l => Ok l
  | _ => Throw TypeError
  end.

(** [error.message.includes(k)] *)
Definition message_includes (e : exn) (k : string) : bool :=
  match e with
  | TypeError => false
  | Error m => includes m k
  end.

(** ** Regular expressions

    The two literals of the code use character classes, concatenation and
    [+]; the matcher below is the usual derivative construction. *)

Inductive class_item : Type :=
| ItChar (c : ascii)   (* a literal character *)
| ItDigit              (* \d *)
| ItSpace.             (* \s *)

(** [[...]] when [negated] is [false], [[^...]] when it is [true]. *)
Record charclass : Type := CharClass {
  negated : bool;
  items : list class_item
}.

Definition item_matches (c : ascii) (i : class_item) : bool :=
  match i with
  | ItChar d => Ascii.eqb c d
  | ItDigit => is_digit c
  | ItSpace => is_space c
  end.

Definition class_matches (cc : charclass) (c : ascii) : bool :=
  xorb (negated cc) (existsb (item_matches c) (items cc)).

Inductive regex : Type :=
| RVoid
| REps
| RClass (cc : charclass)
| RSeq (r1 r2 : regex)
| RAlt (r1 r2 : regex)
| RStar (r : regex).

Definition RLit (c : ascii) : regex := RClass (CharClass false [ItChar c]).
Definition RPlus (r : regex) : regex := RSeq r (RStar r).

Fixpoint nullable (r : regex) : bool :=
  match r with
  | RVoid => false
  | REps => true
  | RClass _ => false
  | RSeq r1 r2 => nullable r1 && nullable r2
  | RAlt r1 r2 => nullable r1 || nullable r2
  | RStar _ => true
  end.

Fixpoint deriv (c : ascii) (r : regex) : regex :=
  match r with
  | RVoid => RVoid
  | REps => RVoid
  | RClass cc => if class_matches cc c then REps else RVoid
  | RSeq r1 r2 =>
      if nullable r1 then RAlt (RSeq (deriv c r1) r2) (deriv c r2)
      else RSeq (deriv c r1) r2
  | RAlt r1 r2 => RAlt (deriv c r1) (deriv c r2)
  | RStar r1 => RSeq (deriv c r1) (RStar r1)
  end.

(** [/^r$/.test(s)] on a string [s]. *)
Fixpoint full_match (r : regex) (s : string) : bool :=
  match s with
  | EmptyString => nullable r
  | String c s' => full_match (deriv c r) s'
  end.

(** [/^r$/.test(v)] : the argument is first converted with ToString. *)
Definition test (r : regex) (v : jsval) : Res bool :=
  rbind (toString v) (fun s => Ok (full_match r s)).

(** [s.replace(/cc/g, '')] for a one-class pattern: every character the
    class matches is dropped. *)
Definition replace_class_g (cc : charclass) (s : string) : string :=
  filter_string (fun c => negb (class_matches cc c)) s.

End JS.

(* ================================================================== *)
(** * The outside world: configuration, clock, the two remote APIs *)
(* ================================================================== *)

Module World.
Import JS.

(** The body of the outbound-call request ([prepareCallData]). *)
Record DynamicVariables : Type := {
  customer_name : jsval;
  company_name : jsval
}.

Record CallData : Type := {
  agent_id : jsval;
  agent_phone_number_id : jsval;
  to_number : jsval;
  dynamic_variables : DynamicVariables
}.

(** What an [axios] call settles to: a response with its parsed [data], or
    a rejection carrying [error.message] and [error.response]
    ([undefined] when no response arrived). *)
Inductive axios_result : Type :=
| AxiosResponse (data : jsval)
| AxiosError (message : string) (response : jsval).

(** Everything a request handler reads from outside: [process.env], the
    clock, and the answers of the two remote services. *)
Record Env : Type := {
  ELEVENLABS_API_KEY : jsval;
  ELEVENLABS_AGENT_ID : jsval;
  ELEVENLABS_PHONE_NUMBER_ID : jsval;
  date_now : Z;                 (* Date.now() *)
  date_iso : string;            (* new Date().toISOString() *)
  monday_api : jsval -> axios_result;       (* by the queried item id *)
  elevenlabs_api : CallData -> axios_result
}.

(** The requests a handler sends out, oldest first. *)
Inductive Event : Type :=
| MondayQuery (itemId : jsval)
| OutboundCall (callData : CallData).

Definition is_outbound_call (e : Event) : bool :=
  match e with OutboundCall _ => true | MondayQuery _ => false end.

(** Asynchronous code: it extends the trace of requests and either returns
    or throws.  A throw keeps the requests already sent. *)
Definition M (A : Type) : Type := list Event -> Res A * list Event.

Definition ret {A} (a : A) : M A := fun t => (Ok a, t).
Definition throw {A} (e : exn) : M A := fun t => (Throw e, t).

Definition bind {A B} (m : M A) (f : A -> M B) : M B :=
  fun t => match m t with
           | (Ok a, t') => f a t'
           | (Throw e, t') => (Throw e, t')
           end.

Definition lift {A} (r : Res A) : M A := fun t => (r, t).

(** [try { m } catch (e) { h e }] *)
Definition try_catch {A} (m : M A) (h : exn -> M A) : M A :=
  fun t => match m t with
           | (Ok a, t') => (Ok a, t')
           | (Throw e, t') => h e t'
           end.

Definition emit (e : Event) : M unit := fun t => (Ok tt, (t ++ [e])%list).

(** [await axios.post(url, { query }, ...)] against the Monday.com API. *)
Definition monday_post (env : Env) (itemId : jsval) : M jsval :=
  bind (emit (MondayQuery itemId)) (fun _ =>
  match monday_api env itemId with
  | AxiosResponse data => ret data
  | AxiosError message _ => throw (Error message)
  end).

End World.

Declare Scope js_scope.
Delimit Scope js_scope with js.
Notation "'let?' x ':=' m 'in' k" := (JS.rbind m (fun x => k))
  (at level 10, x name, m at level 100, k at level 200) : js_scope.
Notation "'let*' x ':=' m 'in' k" := (World.bind m (fun x => k))
  (at level 10, x name, m at level 100, k at level 200) : js_scope.
Open Scope js_scope.

(* ================================================================== *)
(** * services/monday.js *)
(* ================================================================== *)

Module Monday.
Import JS World.

(** [keywords.some(p)] where [p] may throw. *)
Fixpoint some (keywords : list string) (p : string -> Res bool) : Res bool :=
  match keywords with
  | [] => Ok false
  | keyword :: rest =>
      let? b := p keyword in
      if b then Ok true else some rest p
  end.

Definition phoneKeywords : list string :=
  ["phone"; "telefone"; "tel"; "celular"; "mobile"].
Definition emailKeywords : list string := ["email"; "mail"; "e-mail"].
Definition companyKeywords : list string :=
  ["company"; "empresa"; "business"; "organization"].

Definition isPhoneColumn (columnId : jsval) : Res bool :=
  some phoneKeywords (fun keyword =>
    let? s := as_string columnId in
    Ok (includes (toLowerCase s) keyword)).

Definition isEmailColumn (columnId : jsval) : Res bool :=
  some emailKeywords (fun keyword =>
    let? s := as_string columnId in
    Ok (includes (toLowerCase s) keyword)).

Definition isCompanyColumn (columnId : jsval) : Res bool :=
  some companyKeywords (fun keyword =>
    let? s := as_string columnId in
    Ok (includes (toLowerCase s) keyword)).

(** [/[^\d+]/g] *)
Definition nonDigitPlus : charclass := CharClass true [ItDigit; ItChar "+"].

Definition extractPhone (phoneData : jsval) : jsval :=
  rcatch
    (let phone :=
       if is_string phoneData then phoneData
       else if truthy phoneData && truthy (opt_get phoneData "text")
            then opt_get phoneData "text"
       else if truthy phoneData && truthy (opt_get phoneData "value")
            then opt_get phoneData "value"
       else JStr "" in
     let? s := as_string phone in
     let phone := replace_class_g nonDigitPlus s in
     let phone :=
       if (String.length phone =? 11)%nat && negb (startsWith phone "+")
       then "+55" ++ phone
       else if (String.length phone =? 10)%nat && negb (startsWith phone "+")
            then "+55" ++ phone
       else phone in
     if (10 <=? String.length phone)%nat then Ok (JStr phone)
     else Ok JNull)
    (fun _ => JNull).

(** [/^[^\s@]+@[^\s@]+\.[^\s@]+$/] *)
Definition nonSpaceAt : charclass := CharClass true [ItSpace; ItChar "@"].
Definition emailRegex : regex :=
  RSeq (RPlus (RClass nonSpaceAt))
   (RSeq (RLit "@")
    (RSeq (RPlus (RClass nonSpaceAt))
     (RSeq (RLit ".")
      (RPlus (RClass nonSpaceAt))))).

(** [emailRegex.test(email)] converts a picked value that is not a string
    with ToString; when that conversion throws, the [catch] returns
    [null]. *)
Definition extractEmail (emailData : jsval) : jsval :=
  rcatch
    (let email :=
       if is_string emailData then emailData
       else if truthy emailData && truthy (opt_get emailData "text")
            then opt_get emailData "text"
       else if truthy emailData && truthy (opt_get emailData "value")
            then opt_get emailData "value"
       else JStr "" in
     let? matched := test emailRegex email in
     if matched then Ok email else Ok JNull)
    (fun _ => JNull).

(** [l.forEach(body)] where [body] updates the captured record and may
    throw. *)
Fixpoint forEach {A S : Type} (l : list A) (body : A -> S -> Res S) (s : S)
  : Res S :=
  match l with
  | [] => Ok s
  | x :: rest => let? s' := body x s in forEach rest body s'
  end.

(** The [columns] object of [itemData]: created empty, then filled by
    assignments [columns[key] = v].  [own] lists its own properties;
    [proto] is [undefined] while the prototype is [Object.prototype] and
    otherwise the value the [__proto__] setter installed. *)
Record Columns : Type := {
  own : list (string * jsval);
  proto : jsval
}.

Definition no_columns : Columns := {| own := []; proto := JUndefined |}.

Fixpoint assoc_set (k : string) (v : jsval) (l : list (string * jsval))
  : list (string * jsval) :=
  match l with
  | [] => [(k, v)]
  | (k', v') :: l' =>
      if k' =? k then (k, v) :: l' else (k', v') :: assoc_set k v l'
  end.

(** Whether an assignment to [__proto__] reaches the setter that
    [Object.prototype] defines: not when the object has a property of that
    name of its own, nor when its prototype is [null] or is an object with
    such a property of its own (a parsed object can have one, as data). *)
Definition reaches_proto_setter (c : Columns) : bool :=
  negb (has_own (own c) "__proto__")
  && match proto c with
     | JNull => false
     | JObj props => negb (has_own props "__proto__")
     | _ => true
     end.

(** [columns[key] = v].  The setter changes the prototype when given an
    object, an array or [null], and does nothing otherwise; an assignment
    that does not reach it writes an own property, like any other key. *)
Definition columns_set (c : Columns) (key : string) (v : jsval) : Columns :=
  if (key =? "__proto__") && reaches_proto_setter c then
    match v with
    | JObj _ | JArr _ | JNull => {| own := own c; proto := v |}
    | _ => c
    end
  else {| own := assoc_set key v (own c); proto := proto c |}.

(** [columns.name], for a name [Object.prototype] does not define. *)
Definition columns_get (c : Columns) (name : string) : jsval :=
  if existsb (fun kv => fst kv =? name) (own c) then assoc name (own c)
  else opt_get (proto c) name.

Record ItemData : Type := {
  item_id : jsval;
  item_name : jsval;
  item_phone : jsval;
  item_email : jsval;
  item_company : jsval;
  columns : Columns
}.

Definition set_item_phone (d : ItemData) (v : jsval) : ItemData :=
  {| item_id := item_id d; item_name := item_name d; item_phone := v;
     item_email := item_email d; item_company := item_company d;
     columns := columns d |}.
Definition set_item_email (d : ItemData) (v : jsval) : ItemData :=
  {| item_id := item_id d; item_name := item_name d;
     item_phone := item_phone d; item_email := v;
     item_company := item_company d; columns := columns d |}.
Definition set_item_company (d : ItemData) (v : jsval) : ItemData :=
  {| item_id := item_id d; item_name := item_name d;
     item_phone := item_phone d; item_email := item_email d;
     item_company := v; columns := columns d |}.
Definition set_item_columns (d : ItemData) (c : Columns) : ItemData :=
  {| item_id := item_id d; item_name := item_name d;
     item_phone := item_phone d; item_email := item_email d;
     item_company := item_company d; columns := c |}.

(** The callback of [item.column_values.forEach] in [fetchItemDetails]. *)
Definition fetched_column (column : jsval) (itemData : ItemData)
  : Res ItemData :=
  let? id := get column "id" in
  let? key := toString id in
  let text := opt_get column "text" in
  let value := opt_get column "value" in
  let itemData :=
    set_item_columns itemData
      (columns_set (columns itemData) key (text ||| value)) in
  let? p := isPhoneColumn id in
  let itemData :=
    if p && truthy text then set_item_phone itemData (extractPhone text)
    else itemData in
  let? e := isEmailColumn id in
  let itemData :=
    if e && truthy text then set_item_email itemData text else itemData in
  let? c := isCompanyColumn id in
  let itemData :=
    if c && truthy text then set_item_company itemData text else itemData in
  Ok itemData.

(** [fetchItemDetails(boardId, itemId)]: [None] is the [null] result.
    The query text is built from [`${itemId}`] inside the [try], before the
    request: when that conversion throws, nothing is sent. *)
Definition fetchItemDetails (env : Env) (boardId itemId : jsval)
  : M (option ItemData) :=
  try_catch
    (let* _ := lift (toString itemId) in
     let* data := monday_post env itemId in
     let items := opt_get (opt_get data "data") "items" in
     if negb (truthy data)
        || negb (truthy (opt_get data "data"))
        || negb (truthy items)
        || strict_eq_num (opt_get items "length") 0
     then ret None
     else
       let item := opt_get items "0" in
       lift
         (let? id := get item "id" in
          let itemData :=
            {| item_id := id; item_name := opt_get item "name";
               item_phone := JNull; item_email := JNull;
               item_company := JNull; columns := no_columns |} in
          let column_values := opt_get item "column_values" in
          if truthy column_values then
            let? l := as_array column_values in
            let? itemData := forEach l fetched_column itemData in
            Ok (Some itemData)
          else Ok (Some itemData)))
    (fun _ => ret None).

Record LeadData : Type := {
  id : jsval;
  name : jsval;
  boardId : jsval;
  phone : jsval;
  email : jsval;
  company : jsval;
  source : jsval;
  createdAt : jsval;
  eventType : jsval;
  columnId : jsval;
  columnValue : jsval;
  mcpData : option ItemData      (* [None]: null or undefined *)
}.

Definition set_phone (d : LeadData) (v : jsval) : LeadData :=
  {| id := id d; name := name d; boardId := boardId d; phone := v;
     email := email d; company := company d; source := source d;
     createdAt := createdAt d; eventType := eventType d;
     columnId := columnId d; columnValue := columnValue d;
     mcpData := mcpData d |}.
Definition set_email (d : LeadData) (v : jsval) : LeadData :=
  {| id := id d; name := name d; boardId := boardId d; phone := phone d;
     email := v; company := company d; source := source d;
     createdAt := createdAt d; eventType := eventType d;
     columnId := columnId d; columnValue := columnValue d;
     mcpData := mcpData d |}.
Definition set_company (d : LeadData) (v : jsval) : LeadData :=
  {| id := id d; name := name d; boardId := boardId d; phone := phone d;
     email := email d; company := v; source := source d;
     createdAt := createdAt d; eventType := eventType d;
     columnId := columnId d; columnValue := columnValue d;
     mcpData := mcpData d |}.

(** [itemDetails?.field] *)
Definition opt_field (f : ItemData -> jsval) (itemDetails : option ItemData)
  : jsval :=
  match itemDetails with
  | Some d => f d
  | None => JUndefined
  end.

(** The callback of [Object.keys(columnValues).forEach] in
    [processWebhook]. *)
Definition webhook_column (columnValues : jsval) (columnId : string)
  (leadData : LeadData) : Res LeadData :=
  let columnValue := opt_get columnValues columnId in
  let? p := isPhoneColumn (JStr columnId) in
  let leadData :=
    if p && truthy columnValue
    then set_phone leadData (extractPhone columnValue)
    else leadData in
  let? e := isEmailColumn (JStr columnId) in
  let leadData :=
    if e && truthy columnValue
    then set_email leadData (extractEmail columnValue)
    else leadData in
  let? c := isCompanyColumn (JStr columnId) in
  let leadData :=
    if c && truthy columnValue
    then set_company leadData
           (opt_get columnValue "text" ||| opt_get columnValue "value"
            ||| columnValue)
    else leadData in
  Ok leadData.

(** [processWebhook(webhookData)]: [None] is the [null] result. *)
Definition processWebhook (env : Env) (webhookData : jsval)
  : M (option LeadData) :=
  try_catch
    (let* event := lift (get webhookData "event") in
     let pulseName := opt_get webhookData "pulseName" in
     let pulseId := opt_get webhookData "pulseId" in
     let boardId := opt_get webhookData "boardId" in
     let columnValues := opt_get webhookData "columnValues" in
     let eventType := opt_get event "type" in
     let eventData := opt_get event "data" in
     let itemId :=
       opt_get eventData "pulse_id" ||| opt_get event "pulseId" ||| pulseId in
     let boardIdFromEvent :=
       opt_get eventData "board_id" ||| opt_get event "boardId" ||| boardId in
     let columnId :=
       opt_get eventData "column_id" ||| opt_get event "columnId" in
     let columnValue := opt_get eventData "value" ||| opt_get event "value" in
     let itemName := opt_get event "pulseName" ||| pulseName in
     let isCreateEvent := strict_eq_str eventType "create_pulse" in
     let isChangeEvent :=
       strict_eq_str eventType "change_column_value"
       || strict_eq_str eventType "update_column_value" in
     if negb isCreateEvent && negb isChangeEvent then ret None
     else
       let* itemDetails := fetchItemDetails env boardIdFromEvent itemId in
       let leadData :=
         {| id := itemId ||| JStr ("lead-" ++ string_of_Z (date_now env));
            name := itemName ||| opt_field item_name itemDetails
                    ||| JStr "Lead without name";
            boardId := boardIdFromEvent;
            phone := opt_field item_phone itemDetails ||| JNull;
            email := opt_field item_email itemDetails ||| JNull;
            company := opt_field item_company itemDetails ||| JNull;
            source := JStr "monday.com";
            createdAt := JStr (date_iso env);
            eventType := eventType;
            columnId := columnId;
            columnValue := columnValue;
            mcpData := itemDetails |} in
       let* leadData :=
         if truthy columnValues
         then lift (forEach (keys columnValues)
                            (webhook_column columnValues) leadData)
         else ret leadData in
       ret (Some leadData))
    (fun _ => ret None).

End Monday.

(* ================================================================== *)
(** * services/elevenlabs.js *)
(* ================================================================== *)

Module ElevenLabs.
Import JS World Monday.

(** The object [initiateCall] resolves to; a property the code does not set
    is [undefined]. *)
Record CallResult : Type := {
  success : jsval;
  call_id : jsval;
  status : jsval;
  leadId : jsval;
  called_phone : jsval;
  timestamp : jsval;
  simulation : jsval;
  message : jsval
}.

(** [leadData.mcpData?.columns?.lead_company] *)
Definition lead_company (leadData : LeadData) : jsval :=
  match mcpData leadData with
  | Some d => columns_get (columns d) "lead_company"
  | None => JUndefined
  end.

Definition prepareCallData (env : Env) (leadData : LeadData) : CallData :=
  let customerName := name leadData ||| JStr "Customer" in
  let companyName :=
    lead_company leadData ||| company leadData ||| JStr "your restaurant" in
  {| agent_id := ELEVENLABS_AGENT_ID env;
     agent_phone_number_id :=
       ELEVENLABS_PHONE_NUMBER_ID env ||| JStr "default_phone_id";
     to_number := phone leadData;
     dynamic_variables :=
       {| customer_name := customerName; company_name := companyName |} |}.

(** [makeAPICall(callData)] resolves to the axios response, of which the
    caller reads [data]; a rejection is rethrown under a new message.  The
    message is a template literal evaluated in the [catch] block: when the
    conversion of the status or of the detail throws, that [TypeError]
    leaves [makeAPICall] in place of the new error. *)
Definition makeAPICall (env : Env) (callData : CallData) : M jsval :=
  let* _ := emit (OutboundCall callData) in
  match elevenlabs_api env callData with
  | AxiosResponse data => ret data
  | AxiosError message response =>
      let* status := lift (toString (opt_get response "status")) in
      let* detail :=
        lift (toString (opt_get (opt_get response "data") "detail"
                        ||| JStr message)) in
      throw (Error ("ElevenLabs API Error: " ++ status ++ " - " ++ detail))
  end.

Definition simulateCall (env : Env) (leadData : LeadData) : CallResult :=
  {| success := JBool true;
     call_id := JStr ("sim_" ++ string_of_Z (date_now env));
     status := JStr "simulated";
     leadId := id leadData;
     called_phone := phone leadData;
     timestamp := JStr (date_iso env);
     simulation := JBool true;
     message :=
       JStr "Call simulated - ElevenLabs credentials not configured" |}.

Definition initiateCall (env : Env) (leadData : LeadData) : M CallResult :=
  try_catch
    (if negb (truthy (ELEVENLABS_API_KEY env))
        || negb (truthy (ELEVENLABS_AGENT_ID env))
     then throw (Error "ElevenLabs credentials not configured")
     else
       let callData := prepareCallData env leadData in
       let* data := makeAPICall env callData in
       let* call_id := lift (get data "call_id") in
       ret {| success := JBool true;
              call_id := call_id ||| opt_get data "id";
              status := opt_get data "status" ||| JStr "initiated";
              leadId := id leadData;
              called_phone := phone leadData;
              timestamp := JStr (date_iso env);
              simulation := JUndefined;
              message := JUndefined |})
    (fun error =>
       if message_includes error "not configured"
       then ret (simulateCall env leadData)
       else throw error).

(** [validatePhone(phone)].  No [try] surrounds the body: a truthy
    argument that is not a string makes [replace] throw. *)
Definition validatePhone (phone : jsval) : Res bool :=
  if negb (truthy phone) then Ok false
  else
    let? s := as_string phone in
    let cleanPhone := replace_class_g nonDigitPlus s in
    Ok ((10 <=? String.length cleanPhone)%nat && startsWith cleanPhone "+").

(** [formatPhone(phone)] *)
Definition formatPhone (phone : jsval) : Res jsval :=
  if negb (truthy phone) then Ok JNull
  else
    let? s := as_string phone in
    let cleanPhone := replace_class_g nonDigitPlus s in
    let cleanPhone :=
      if (String.length cleanPhone =? 11)%nat
         && negb (startsWith cleanPhone "+")
      then "+55" ++ cleanPhone
      else if (String.length cleanPhone =? 10)%nat
              && negb (startsWith cleanPhone "+")
           then "+55" ++ cleanPhone
      else cleanPhone in
    Ok (JStr cleanPhone).

End ElevenLabs.

(* ================================================================== *)
(** * server.js *)
(* ================================================================== *)

Module Server.
Import JS World Monday ElevenLabs.

(** What the handler sends back: [res.status(code).json(body)], the status
    being 200 when the code sets none. *)
Record Response : Type := {
  status_code : nat;
  body : jsval
}.

Definition a_acute : string := String (ascii_of_nat 225) EmptyString.
Definition e_acute : string := String (ascii_of_nat 233) EmptyString.
Definition o_acute : string := String (ascii_of_nat 243) EmptyString.

(** [error.message] as the 500 response embeds it.  The text of an
    engine-raised [TypeError] is not fixed by the language. *)
Definition exn_message (e : exn) : jsval :=
  match e with
  | Error m => JStr m
  | TypeError => JStr "TypeError"
  end.

Definition call_result_json (r : CallResult) : jsval :=
  JObj [("success", success r); ("call_id", call_id r);
        ("status", status r); ("leadId", leadId r);
        ("phone", called_phone r); ("timestamp", timestamp r);
        ("simulation", simulation r); ("message", message r)].

(** [app.post('/webhook/monday', ...)] applied to [req.body].  A throw of
    the result is an exception that leaves the handler. *)
Definition webhook_monday (env : Env) (req_body : jsval) : M Response :=
  let* challenge := lift (get req_body "challenge") in
  if truthy challenge
  then ret {| status_code := 200; body := JObj [("challenge", challenge)] |}
  else
    try_catch
      (let* leadData := processWebhook env req_body in
       match leadData with
       | None =>
           ret {| status_code := 400;
                  body := JObj [("error",
                    JStr ("Dados inv" ++ a_acute ++ "lidos do webhook"))] |}
       | Some leadData =>
           if negb (truthy (phone leadData))
           then ret {| status_code := 200;
                       body := JObj [("message",
                         JStr "Lead sem telefone, ignorado")] |}
           else
             let* callResult := initiateCall env leadData in
             ret {| status_code := 200;
                    body := JObj [("success", JBool true);
                                  ("message",
                                   JStr "Chamada iniciada com sucesso");
                                  ("leadId", id leadData);
                                  ("callId", call_id callResult)] |}
       end)
      (fun error =>
         ret {| status_code := 500;
                body := JObj [("error", JStr "Erro interno do servidor");
                              ("message", exn_message error)] |}).

(** [app.post('/test/call', ...)] applied to [req.body]. *)
Definition test_call (env : Env) (req_body : jsval) : M Response :=
  try_catch
    (let* phone := lift (get req_body "phone") in
     let name := opt_get req_body "name" in
     if negb (truthy phone)
     then ret {| status_code := 400;
                 body := JObj [("error",
                   JStr ("Telefone " ++ e_acute ++ " obrigat" ++ o_acute
                         ++ "rio"))] |}
     else
       let testLead :=
         {| id := JStr ("test-" ++ string_of_Z (date_now env));
            name := name ||| JStr "Teste";
            boardId := JUndefined;
            Monday.phone := phone;
            email := JUndefined;
            company := JUndefined;
            source := JStr "manual-test";
            createdAt := JUndefined;
            eventType := JUndefined;
            columnId := JUndefined;
            columnValue := JUndefined;
            mcpData := None |} in
       let* callResult := initiateCall env testLead in
       ret {| status_code := 200;
              body := JObj [("success", JBool true);
                            ("message", JStr "Chamada de teste iniciada");
                            ("callResult", call_result_json callResult)] |})
    (fun error =>
       ret {| status_code := 500;
              body := JObj [("error", JStr "Erro ao testar chamada");
                            ("message", exn_message error)] |}).

(** [app.post('/webhook/elevenlabs', ...)] applied to [req.body]: the
    destructuring of the body is inside the [try]. *)
Definition webhook_elevenlabs (env : Env) (req_body : jsval) : M Response :=
  try_catch
    (let* dynamic_variables := lift (get req_body "dynamic_variables") in
     ret {| status_code := 200;
            body := JObj [("success", JBool true);
                          ("message", JStr "Webhook processado com sucesso");
                          ("received_variables", dynamic_variables ||| JNull);
                          ("timestamp", JStr (date_iso env))] |})
    (fun error =>
       ret {| status_code := 500;
              body := JObj [("error", JStr "Erro interno do servidor");
                            ("message", exn_message error)] |}).

(** The requests to the calling provider among those a handler sent. *)
Definition outbound_calls (t : list Event) : list Event :=
  filter is_outbound_call t.

End Server.

(* ================================================================== *)
(** * Specification-side definitions *)
(* ================================================================== *)

Module Spec.
Import JS World Monday ElevenLabs Server.

(** ** The language of a regular expression *)

Inductive Lang : regex -> string -> Prop :=
| LEps : Lang REps ""
| LClass cc c :
    class_matches cc c = true -> Lang (RClass cc) (String c "")
| LSeq r1 r2 s1 s2 :
    Lang r1 s1 -> Lang r2 s2 -> Lang (RSeq r1 r2) (s1 ++ s2)
| LAltL r1 r2 s : Lang r1 s -> Lang (RAlt r1 r2) s
| LAltR r1 r2 s : Lang r2 s -> Lang (RAlt r1 r2) s
| LStarNil r : Lang (RStar r) ""
| LStarApp r s1 s2 :
    Lang r s1 -> Lang (RStar r) s2 -> Lang (RStar r) (s1 ++ s2).

(** ** Field extractor (section 4.1 of the specification) *)

(** The value both extractors work on: the input itself when it is a
    string, otherwise its [text], otherwise its [value], otherwise the empty
    string; an empty or missing field counts as absent. *)
Definition chosen_field (v : jsval) : jsval :=
  match v with
  | JStr _ => v
  | _ => opt_get v "text" ||| opt_get v "value" ||| JStr ""
  end.

Fixpoint count_char (c : ascii) (s : string) : nat :=
  match s with
  | EmptyString => 0
  | String d s' => (if Ascii.eqb d c then 1 else 0) + count_char c s'
  end.

Definition no_whitespace (s : string) : Prop :=
  forallb_string (fun c => negb (is_space c)) s = true.

(** [local@domain.tld]: three non-empty parts, no whitespace anywhere, and
    the [@] shown is the only one, so that the dot shown comes after it. *)
Definition email_pattern (s : string) : Prop :=
  exists local domain tld : string,
    s = local ++ "@" ++ domain ++ "." ++ tld
    /\ local <> "" /\ domain <> "" /\ tld <> ""
    /\ no_whitespace s
    /\ count_char "@" s = 1.

(** A part of the address as the expression reads it: [[^\s@]+]. *)
Definition part (x : string) : Prop :=
  x <> "" /\ forallb_string (class_matches nonSpaceAt) x = true.

(** E-mail validation as the specification words it: the input coerced
    to a string has the form [local@domain.tld]. *)
Definition email_accepted_as_worded (v : jsval) : Prop :=
  exists s, toString v = Ok s /\ email_pattern s.

Definition is_plus (c : ascii) : bool := Ascii.eqb c "+".

(** Phone normalisation as the specification words it: digits are kept,
    and a [+] only in leading position; the country prefix goes in front of
    10 or 11 digits without a leading [+]. *)
Definition normalizePhone_spec (v : jsval) : jsval :=
  let raw :=
    rcatch (toString (opt_get v "text" ||| opt_get v "value" ||| v))
      (fun _ => "") in
  let digits := filter_string is_digit raw in
  let leading_plus :=
    startsWith (filter_string (fun c => is_digit c || is_plus c) raw) "+" in
  let stripped := if leading_plus then "+" ++ digits else digits in
  let n := String.length digits in
  let result :=
    if ((n =? 10)%nat || (n =? 11)%nat) && negb leading_plus
    then "+55" ++ stripped
    else stripped in
  if (10 <=? String.length result)%nat then JStr result else JNull.

(** Phone normalisation with every [+] kept and the prefix decided on the
    length of what is kept. *)
Definition normalizePhone_kept (v : jsval) : jsval :=
  match chosen_field v with
  | JStr raw =>
      let kept := filter_string (fun c => is_digit c || is_plus c) raw in
      let n := String.length kept in
      if (n <? 10)%nat then JNull
      else if (n <=? 11)%nat && negb (startsWith kept "+")
           then JStr ("+55" ++ kept)
      else JStr kept
  | _ => JNull
  end.

(** The [+] signs of the input, if any, reduce to one in front of the
    first digit. *)
Definition plus_only_leading (raw : string) : Prop :=
  match filter_string (fun c => is_digit c || is_plus c) raw with
  | EmptyString => True
  | String _ rest => count_char "+" rest = 0
  end.

Inductive Role : Type := RolePhone | RoleEmail | RoleCompany.

(** A keyword of the set occurs in the identifier, case-insensitively. *)
Definition has_keyword (keywords : list string) (identifier : string)
  : bool :=
  existsb (fun keyword => includes (toLowerCase identifier) keyword) keywords.

(** [classifyColumn]: the first role, in the order phone, email, company,
    one of whose keywords occurs in the identifier. *)
Definition classifyColumn (identifier : string) : option Role :=
  if has_keyword phoneKeywords identifier then Some RolePhone
  else if has_keyword emailKeywords identifier then Some RoleEmail
  else if has_keyword companyKeywords identifier then Some RoleCompany
  else None.

(** One webhook column applied to the record when a column contributes to
    the first role it matches and to no other. *)
Definition webhook_column_exclusive (columnValues : jsval)
  (columnId : string) (leadData : LeadData) : LeadData :=
  let columnValue := opt_get columnValues columnId in
  if truthy columnValue then
    match classifyColumn columnId with
    | Some RolePhone => set_phone leadData (extractPhone columnValue)
    | Some RoleEmail => set_email leadData (extractEmail columnValue)
    | Some RoleCompany =>
        set_company leadData
          (opt_get columnValue "text" ||| opt_get columnValue "value"
           ||| columnValue)
    | None => leadData
    end
  else leadData.

(** ** Webhook normaliser (section 4.2) *)

Definition event_type (webhookData : jsval) : jsval :=
  opt_get (opt_get webhookData "event") "type".

Definition recognized (eventType : jsval) : bool :=
  strict_eq_str eventType "create_pulse"
  || strict_eq_str eventType "change_column_value"
  || strict_eq_str eventType "update_column_value".

(** The item and board identifiers the normaliser resolves. *)
Definition resolved_item (webhookData : jsval) : jsval :=
  let event := opt_get webhookData "event" in
  opt_get (opt_get event "data") "pulse_id" ||| opt_get event "pulseId"
  ||| opt_get webhookData "pulseId".

Definition resolved_board (webhookData : jsval) : jsval :=
  let event := opt_get webhookData "event" in
  opt_get (opt_get event "data") "board_id" ||| opt_get event "boardId"
  ||| opt_get webhookData "boardId".

Definition column_map (webhookData : jsval) : jsval :=
  opt_get webhookData "columnValues".

(** The trace after [fetchItemDetails]: the query is sent unless the item
    identifier cannot be put into the query text. *)
Definition fetch_trace (t : list Event) (itemId : jsval) : list Event :=
  match toString itemId with
  | Ok _ => (t ++ [MondayQuery itemId])%list
  | Throw _ => t
  end.

(** A column of the map is applied to a role when its identifier has a
    keyword of the role and its value is truthy. *)
Definition applied (keywords : list string) (columnValues : jsval)
  (columnId : string) : bool :=
  has_keyword keywords columnId && truthy (opt_get columnValues columnId).

(** The value of the last applied column of a role among the columns [l],
    taken in order. *)
Definition last_applied_in (keywords : list string) (columnValues : jsval)
  (l : list string) : option jsval :=
  option_map (opt_get columnValues)
    (hd_error (rev (filter (applied keywords columnValues) l))).

(** The same over the whole map, in the order of [Object.keys]. *)
Definition last_applied (keywords : list string) (columnValues : jsval)
  : option jsval :=
  last_applied_in keywords columnValues (keys columnValues).

(** A field after the webhook columns: what the last applied column gives,
    the earlier value when none was applied. *)
Definition overlay (webhook : option jsval) (extract : jsval -> jsval)
  (earlier : jsval) : jsval :=
  match webhook with
  | Some v => extract v
  | None => earlier
  end.

(** Webhook value over fetched value: the record starts from the fetched
    value (or [null]) and the webhook columns come on top. *)
Definition webhook_over_fetch (webhook : option jsval)
  (extract : jsval -> jsval) (fetched : jsval) : jsval :=
  overlay webhook extract (fetched ||| JNull).

Definition company_text (columnValue : jsval) : jsval :=
  opt_get columnValue "text" ||| opt_get columnValue "value" ||| columnValue.

(** One webhook column applied to the record when every role is tried on
    its own. *)
Definition webhook_column_independent (columnValues : jsval)
  (columnId : string) (leadData : LeadData) : LeadData :=
  let columnValue := opt_get columnValues columnId in
  let leadData :=
    if applied phoneKeywords columnValues columnId
    then set_phone leadData (extractPhone columnValue) else leadData in
  let leadData :=
    if applied emailKeywords columnValues columnId
    then set_email leadData (extractEmail columnValue) else leadData in
  if applied companyKeywords columnValues columnId
  then set_company leadData (company_text columnValue) else leadData.

(** The number of roles an identifier has a keyword of. *)
Definition role_count (identifier : string) : nat :=
  (if has_keyword phoneKeywords identifier then 1 else 0)
  + (if has_keyword emailKeywords identifier then 1 else 0)
  + (if has_keyword companyKeywords identifier then 1 else 0).

(** ** Call request builder (section 4.3) *)

(** The first non-empty value of a list, or the fallback. *)
Fixpoint first_non_empty (candidates : list jsval) (fallback : jsval)
  : jsval :=
  match candidates with
  | [] => fallback
  | v :: rest => if truthy v then v else first_non_empty rest fallback
  end.

(** ** Relay responses (section 4.4) *)

Definition response_invalid : Response :=
  {| status_code := 400;
     body := JObj [("error",
                    JStr ("Dados inv" ++ a_acute ++ "lidos do webhook"))] |}.

Definition response_no_phone : Response :=
  {| status_code := 200;
     body := JObj [("message", JStr "Lead sem telefone, ignorado")] |}.

(** The display name the normaliser resolves from the payload. *)
Definition resolved_name (webhookData : jsval) : jsval :=
  opt_get (opt_get webhookData "event") "pulseName"
  ||| opt_get webhookData "pulseName".

Definition is_object (v : jsval) : bool :=
  match v with JObj _ => true | _ => false end.

(** ** Shapes used by the properties of the remaining code *)

(** A normalised phone: [null], or a string of at least ten characters,
    digits and [+] signs only. *)
Definition phone_shaped (v : jsval) : Prop :=
  match v with
  | JNull => True
  | JStr p =>
      10 <= String.length p
      /\ forallb_string (fun c => is_digit c || is_plus c) p = true
  | _ => False
  end.

(** [k] occurs in [s]. *)
Definition occurs_in (k s : string) : Prop :=
  exists a b : string, s = a ++ k ++ b.

(** The calls to the provider a trace holds. *)
Definition calls_of (t : list Event) : list CallData :=
  flat_map (fun e => match e with
                     | OutboundCall c => [c]
                     | MondayQuery _ => []
                     end) t.

(** The message [makeAPICall] gives the error it rethrows, when the
    status and the detail convert to strings. *)
Definition api_error_message (message : string) (response : jsval)
  : Res string :=
  let? status := toString (opt_get response "status") in
  let? detail :=
    toString (opt_get (opt_get response "data") "detail" ||| JStr message) in
  Ok ("ElevenLabs API Error: " ++ status ++ " - " ++ detail).

(** What leaves [makeAPICall] on a rejection: the new error, or the
    [TypeError] of the message template. *)
Definition rethrown_error (message : string) (response : jsval) : exn :=
  match api_error_message message response with
  | Ok text => Error text
  | Throw e => e
  end.

(** What [initiateCall] returns when the provider answered with [data]. *)
Definition initiated_result (env : Env) (leadData : LeadData) (data : jsval)
  : CallResult :=
  {| success := JBool true;
     call_id := opt_get data "call_id" ||| opt_get data "id";
     status := opt_get data "status" ||| JStr "initiated";
     leadId := id leadData;
     called_phone := phone leadData;
     timestamp := JStr (date_iso env);
     simulation := JUndefined;
     message := JUndefined |}.

Definition response_error (error : exn) : Response :=
  {| status_code := 500;
     body := JObj [("error", JStr "Erro interno do servidor");
                   ("message", exn_message error)] |}.

Definition response_test_error (error : exn) : Response :=
  {| status_code := 500;
     body := JObj [("error", JStr "Erro ao testar chamada");
                   ("message", exn_message error)] |}.

Definition response_phone_required : Response :=
  {| status_code := 400;
     body := JObj [("error",
                    JStr ("Telefone " ++ e_acute ++ " obrigat" ++ o_acute
                          ++ "rio"))] |}.

(** The request [/test/call] sends for a body with a phone. *)
Definition test_call_request (env : Env) (req_body : jsval) : CallData :=
  {| agent_id := ELEVENLABS_AGENT_ID env;
     agent_phone_number_id :=
       ELEVENLABS_PHONE_NUMBER_ID env ||| JStr "default_phone_id";
     to_number := opt_get req_body "phone";
     dynamic_variables :=
       {| customer_name := opt_get req_body "name" ||| JStr "Teste";
          company_name := JStr "your restaurant" |} |}.

Definition response_challenge (challenge : jsval) : Response :=
  {| status_code := 200; body := JObj [("challenge", challenge)] |}.

Definition response_call_started (leadId callId : jsval) : Response :=
  {| status_code := 200;
     body := JObj [("success", JBool true);
                   ("message", JStr "Chamada iniciada com sucesso");
                   ("leadId", leadId);
                   ("callId", callId)] |}.

End Spec.

(* ================================================================== *)
(** * Concrete requests and environments *)
(* ================================================================== *)

Module Examples.
Import JS World Monday ElevenLabs Server Spec.

(** A Monday.com answer for one item with a phone and a company column. *)
Definition item_answer : jsval :=
  JObj [("data", JObj [("items", JArr [
    JObj [("id", JStr "77"); ("name", JStr "Ana");
          ("column_values", JArr [
             JObj [("id", JStr "phone_1");
                   ("text", JStr "+5511888888888"); ("value", JNull)];
             JObj [("id", JStr "lead_company");
                   ("text", JStr "ACME"); ("value", JNull)]])]])])].

(** What [fetchItemDetails] makes of [item_answer]. *)
Definition fetched_item : ItemData :=
  {| item_id := JStr "77"; item_name := JStr "Ana";
     item_phone := JStr "+5511888888888"; item_email := JNull;
     item_company := JStr "ACME";
     columns := {| own := [("phone_1", JStr "+5511888888888");
                           ("lead_company", JStr "ACME")];
                   proto := JUndefined |} |}.

(** No calling-provider credentials; Monday.com answers [item_answer]. *)
Definition env_unconfigured : Env :=
  {| ELEVENLABS_API_KEY := JUndefined;
     ELEVENLABS_AGENT_ID := JUndefined;
     ELEVENLABS_PHONE_NUMBER_ID := JUndefined;
     date_now := 1700000000000;
     date_iso := "2023-11-14T22:13:20.000Z";
     monday_api := fun _ => AxiosResponse item_answer;
     elevenlabs_api := fun _ => AxiosError "Network Error" JUndefined |}.

(** Credentials present; the Monday.com request fails, the provider
    accepts the call. *)
Definition env_offline_crm : Env :=
  {| ELEVENLABS_API_KEY := JStr "key";
     ELEVENLABS_AGENT_ID := JStr "agent";
     ELEVENLABS_PHONE_NUMBER_ID := JUndefined;
     date_now := 1700000000000;
     date_iso := "2023-11-14T22:13:20.000Z";
     monday_api := fun _ => AxiosError "Network Error" JUndefined;
     elevenlabs_api :=
       fun _ => AxiosResponse (JObj [("call_id", JStr "c-1")]) |}.

Definition created (columnValues : list (string * jsval)) : jsval :=
  JObj [("event", JObj [("type", JStr "create_pulse");
                        ("pulseId", JNum 77);
                        ("pulseName", JStr "Ana")]);
        ("columnValues", JObj columnValues)].

Definition body_one_phone : jsval :=
  created [("phone", JStr "11999999999")].

Definition body_bad_phone : jsval := created [("phone", JStr "123")].

Definition body_bad_then_good_phone : jsval :=
  created [("phone", JStr "123"); ("mobile", JStr "11999999999")].

Definition body_no_columns : jsval :=
  JObj [("event", JObj [("type", JStr "create_pulse");
                        ("pulseId", JNum 77)])].

Definition body_unknown_event : jsval :=
  JObj [("event", JObj [("type", JStr "unknown_event")])].

Definition columns_phone_email : jsval :=
  JObj [("phone_email", JStr "1234567890@b.co")].

Definition body_phone_email : jsval :=
  created [("phone_email", JStr "1234567890@b.co")].

Definition blank_lead : LeadData :=
  {| id := JStr "1"; name := JStr "Ana"; boardId := JUndefined;
     phone := JNull; email := JNull; company := JNull;
     source := JStr "monday.com"; createdAt := JStr "";
     eventType := JStr "create_pulse"; columnId := JUndefined;
     columnValue := JUndefined; mcpData := None |}.

(** An answer whose second column has a number for identifier. *)
Definition item_answer_bad_column : jsval :=
  JObj [("data", JObj [("items", JArr [
    JObj [("id", JStr "77"); ("name", JStr "Ana");
          ("column_values", JArr [
             JObj [("id", JStr "phone_1");
                   ("text", JStr "+5511888888888"); ("value", JNull)];
             JObj [("id", JNum 5);
                   ("text", JStr "x"); ("value", JNull)]])]])])].

Definition env_bad_column : Env :=
  {| ELEVENLABS_API_KEY := JStr "key";
     ELEVENLABS_AGENT_ID := JStr "agent";
     ELEVENLABS_PHONE_NUMBER_ID := JUndefined;
     date_now := 1700000000000;
     date_iso := "2023-11-14T22:13:20.000Z";
     monday_api := fun _ => AxiosResponse item_answer_bad_column;
     elevenlabs_api :=
       fun _ => AxiosResponse (JObj [("call_id", JStr "c-1")]) |}.

(** Credentials present, Monday.com answers [item_answer], the provider
    rejects the call with a detail that mentions configuration. *)
Definition env_provider_misconfigured : Env :=
  {| ELEVENLABS_API_KEY := JStr "key";
     ELEVENLABS_AGENT_ID := JStr "agent";
     ELEVENLABS_PHONE_NUMBER_ID := JUndefined;
     date_now := 1700000000000;
     date_iso := "2023-11-14T22:13:20.000Z";
     monday_api := fun _ => AxiosResponse item_answer;
     elevenlabs_api :=
       fun _ => AxiosError "Request failed with status code 400"
                  (JObj [("status", JNum 400);
                         ("data", JObj [("detail",
                            JStr "Phone number not configured")])]) |}.

(** The same with a detail that cannot be converted to a string: a list
    that holds an object with a [toString] entry. *)
Definition env_provider_unprintable : Env :=
  {| ELEVENLABS_API_KEY := JStr "key";
     ELEVENLABS_AGENT_ID := JStr "agent";
     ELEVENLABS_PHONE_NUMBER_ID := JUndefined;
     date_now := 1700000000000;
     date_iso := "2023-11-14T22:13:20.000Z";
     monday_api := fun _ => AxiosResponse item_answer;
     elevenlabs_api :=
       fun _ => AxiosError "Request failed with status code 400"
                  (JObj [("status", JNum 400);
                         ("data", JObj [("detail",
                            JArr [JStr "not configured";
                                  JObj [("toString", JNum 1)]])])]) |}.

(** Credentials present, Monday.com answers [item_answer], the provider
    accepts. *)
Definition env_online : Env :=
  {| ELEVENLABS_API_KEY := JStr "key";
     ELEVENLABS_AGENT_ID := JStr "agent";
     ELEVENLABS_PHONE_NUMBER_ID := JUndefined;
     date_now := 1700000000000;
     date_iso := "2023-11-14T22:13:20.000Z";
     monday_api := fun _ => AxiosResponse item_answer;
     elevenlabs_api :=
       fun _ => AxiosResponse (JObj [("call_id", JStr "c-1")]) |}.

(** Credentials present, Monday.com answers [item_answer], the provider
    cannot be reached. *)
Definition env_provider_down : Env :=
  {| ELEVENLABS_API_KEY := JStr "key";
     ELEVENLABS_AGENT_ID := JStr "agent";
     ELEVENLABS_PHONE_NUMBER_ID := JUndefined;
     date_now := 1700000000000;
     date_iso := "2023-11-14T22:13:20.000Z";
     monday_api := fun _ => AxiosResponse item_answer;
     elevenlabs_api := fun _ => AxiosError "Network Error" JUndefined |}.

Definition body_test_call : jsval :=
  JObj [("phone", JStr "not a phone"); ("name", JStr "Rui")].

(** An event whose item identifier cannot be converted to a string. *)
Definition body_unprintable_item : jsval :=
  JObj [("event", JObj [("type", JStr "create_pulse");
                        ("pulseId", JObj [("toString", JNum 1)])]);
        ("columnValues", JObj [("phone", JStr "11999999999")])].

Definition body_challenge : jsval :=
  JObj [("challenge", JStr "abc123");
        ("event", JObj [("type", JStr "create_pulse");
                        ("pulseId", JNum 77)])].

Definition body_company_column : jsval :=
  created [("empresa", JStr "Webhook Ltda")].

Definition body_columns_array : jsval :=
  JObj [("event", JObj [("type", JStr "create_pulse");
                        ("pulseId", JNum 77)]);
        ("columnValues", JArr [JStr "11999999999"])].

(** The record [processWebhook] returns for [body_one_phone] when
    Monday.com answers [item_answer]. *)
Definition lead_one_phone : LeadData :=
  {| id := JNum 77; name := JStr "Ana"; boardId := JUndefined;
     phone := JStr "+5511999999999"; email := JNull;
     company := JStr "ACME"; source := JStr "monday.com";
     createdAt := JStr "2023-11-14T22:13:20.000Z";
     eventType := JStr "create_pulse"; columnId := JUndefined;
     columnValue := JUndefined; mcpData := Some fetched_item |}.

Definition lead_with_phone : LeadData :=
  set_phone blank_lead (JStr "+5511999999999").

End Examples.

(* ================================================================== *)
(** * Strings and the regular-expression matcher *)
(* ================================================================== *)

Module StringFacts.
Import JS Spec.

Lemma append_nil_r (s : string) : s ++ "" = s.
Proof. induction s as [|c s IH]; simpl; [reflexivity | now rewrite IH]. Qed.

Lemma append_assoc (a b c : string) : (a ++ b) ++ c = a ++ (b ++ c).
Proof. induction a as [|x a IH]; simpl; [reflexivity | now rewrite IH]. Qed.

Lemma append_eq_nil (a b : string) : a ++ b = "" -> a = "" /\ b = "".
Proof. destruct a; simpl; intros H; [now split | discriminate]. Qed.

(** How a concatenation can start with a given character. *)
Lemma append_eq_cons (a b : string) (c : ascii) (s : string) :
  a ++ b = String c s ->
  (a = "" /\ b = String c s) \/ (exists a', a = String c a' /\ s = a' ++ b).
Proof.
  destruct a as [|x a]; simpl; intros H.
  - left. now split.
  - right. inversion H; subst. now exists a.
Qed.

Lemma forallb_string_app (p : ascii -> bool) (a b : string) :
  forallb_string p (a ++ b) = forallb_string p a && forallb_string p b.
Proof.
  induction a as [|x a IH]; simpl; [reflexivity|].
  now rewrite IH, andb_assoc.
Qed.

Lemma count_char_app (c : ascii) (a b : string) :
  count_char c (a ++ b) = count_char c a + count_char c b.
Proof. induction a as [|x a IH]; simpl; [reflexivity | rewrite IH; lia]. Qed.

Lemma count_char_zero (c : ascii) (s : string) :
  count_char c s = 0
  <-> forallb_string (fun d => negb (Ascii.eqb d c)) s = true.
Proof.
  induction s as [|x s IH]; simpl; [tauto|].
  destruct (Ascii.eqb x c); simpl.
  - split; [lia | discriminate].
  - exact IH.
Qed.

Lemma forallb_string_and (p q : ascii -> bool) (s : string) :
  forallb_string (fun c => p c && q c) s
  = forallb_string p s && forallb_string q s.
Proof.
  induction s as [|x s IH]; simpl; [reflexivity|].
  rewrite IH. destruct (p x), (q x), (forallb_string p s); reflexivity.
Qed.

Lemma forallb_string_ext (p q : ascii -> bool) (s : string) :
  (forall c, p c = q c) -> forallb_string p s = forallb_string q s.
Proof.
  intros E. induction s as [|x s IH]; simpl; [reflexivity|].
  now rewrite E, IH.
Qed.

Lemma forallb_filter_string (p : ascii -> bool) (s : string) :
  forallb_string p (filter_string p s) = true.
Proof.
  induction s as [|x s IH]; simpl; [reflexivity|].
  destruct (p x) eqn:E; simpl; [now rewrite E|assumption].
Qed.

End StringFacts.

Module RegexFacts.
Import JS Spec StringFacts.

Create HintDb lang.
#[local] Hint Constructors Lang : lang.

Lemma Lang_seq_inv (r1 r2 : regex) (s : string) :
  Lang (RSeq r1 r2) s ->
  exists s1 s2, s = s1 ++ s2 /\ Lang r1 s1 /\ Lang r2 s2.
Proof. intros H. inversion H; subst. eauto. Qed.

Lemma Lang_alt_inv (r1 r2 : regex) (s : string) :
  Lang (RAlt r1 r2) s -> Lang r1 s \/ Lang r2 s.
Proof. intros H. inversion H; subst; auto. Qed.

Lemma Lang_class_inv (cc : charclass) (s : string) :
  Lang (RClass cc) s ->
  exists c, s = String c "" /\ class_matches cc c = true.
Proof. intros H. inversion H; subst. eauto. Qed.

Lemma nullable_Lang (r : regex) : nullable r = true <-> Lang r "".
Proof.
  induction r as [| |cc|r1 IH1 r2 IH2|r1 IH1 r2 IH2|r IH]; simpl.
  - split; [discriminate | intros H; inversion H].
  - split; auto with lang.
  - split; [discriminate | intros H; inversion H].
  - rewrite andb_true_iff, IH1, IH2. split.
    + intros [H1 H2]. change "" with ("" ++ ""). auto with lang.
    + intros H. apply Lang_seq_inv in H as (s1 & s2 & E & H1 & H2).
      symmetry in E. apply append_eq_nil in E as [-> ->]. now split.
  - rewrite orb_true_iff, IH1, IH2. split.
    + intros [H|H]; auto with lang.
    + apply Lang_alt_inv.
  - split; auto with lang.
Qed.

(** A non-empty word of a starred language starts with a non-empty word of
    the language itself. *)
Lemma Lang_star_cons (r : regex) (c : ascii) (s : string) :
  Lang (RStar r) (String c s) ->
  exists s1 s2, s = s1 ++ s2 /\ Lang r (String c s1) /\ Lang (RStar r) s2.
Proof.
  intros H.
  remember (RStar r) as r' eqn:Er. remember (String c s) as w eqn:Ew.
  revert s Ew.
  induction H as [| | | | | |r0 s1 s2 H1 _ H2 IH2]; intros t Ew;
    try discriminate.
  inversion Er; subst r0.
  destruct (append_eq_cons _ _ _ _ Ew) as [[-> E2]|[a' [-> ->]]].
  - now apply IH2.
  - exists a', s2. auto.
Qed.

Lemma Lang_seq_cons (r1 r2 : regex) (c : ascii) (s : string) :
  Lang (RSeq r1 r2) (String c s)
  <-> (exists s1 s2, s = s1 ++ s2 /\ Lang r1 (String c s1) /\ Lang r2 s2)
      \/ (Lang r1 "" /\ Lang r2 (String c s)).
Proof.
  split.
  - intros H. apply Lang_seq_inv in H as (s1 & s2 & E & H1 & H2).
    symmetry in E.
    destruct (append_eq_cons _ _ _ _ E) as [[-> ->]|[a' [-> ->]]].
    + right. now split.
    + left. exists a', s2. auto.
  - intros [(s1 & s2 & -> & H1 & H2)|[H1 H2]].
    + change (String c (s1 ++ s2)) with (String c s1 ++ s2).
      now constructor.
    + change (String c s) with ("" ++ String c s). now constructor.
Qed.

Lemma deriv_Lang (c : ascii) (r : regex) :
  forall s, Lang (deriv c r) s <-> Lang r (String c s).
Proof.
  induction r as [| |cc|r1 IH1 r2 IH2|r1 IH1 r2 IH2|r IH]; intros s; simpl.
  - split; intros H; inversion H.
  - split; intros H; inversion H.
  - destruct (class_matches cc c) eqn:E; split; intros H.
    + inversion H; subst. auto with lang.
    + inversion H; subst. constructor.
    + inversion H.
    + inversion H; subst. congruence.
  - rewrite Lang_seq_cons.
    destruct (nullable r1) eqn:N; split.
    + intros H. apply Lang_alt_inv in H as [H|H].
      * apply Lang_seq_inv in H as (s1 & s2 & -> & H1 & H2).
        left. exists s1, s2. repeat split; [now apply IH1 | assumption].
      * right. split; [now apply nullable_Lang | now apply IH2].
    + intros [(s1 & s2 & -> & H1 & H2)|[H1 H2]].
      * apply LAltL. constructor; [now apply IH1 | assumption].
      * apply LAltR. now apply IH2.
    + intros H. apply Lang_seq_inv in H as (s1 & s2 & -> & H1 & H2).
      left. exists s1, s2. repeat split; [now apply IH1 | assumption].
    + intros [(s1 & s2 & -> & H1 & H2)|[H1 H2]].
      * constructor; [now apply IH1 | assumption].
      * apply nullable_Lang in H1. congruence.
  - split; intros H.
    + apply Lang_alt_inv in H as [H|H];
        [apply LAltL; now apply IH1 | apply LAltR; now apply IH2].
    + apply Lang_alt_inv in H as [H|H];
        [apply LAltL; now apply IH1 | apply LAltR; now apply IH2].
  - split; intros H.
    + apply Lang_seq_inv in H as (s1 & s2 & -> & H1 & H2).
      change (String c (s1 ++ s2)) with (String c s1 ++ s2).
      apply LStarApp; [now apply IH | assumption].
    + apply Lang_star_cons in H as (s1 & s2 & -> & H1 & H2).
      constructor; [now apply IH | assumption].
Qed.

(** The matcher decides the language. *)
Lemma full_match_Lang (s : string) :
  forall r, full_match r s = true <-> Lang r s.
Proof.
  induction s as [|c s IH]; intros r; simpl.
  - apply nullable_Lang.
  - rewrite IH. apply deriv_Lang.
Qed.

Lemma Lang_lit (c : ascii) (s : string) :
  Lang (RLit c) s <-> s = String c "".
Proof.
  split.
  - intros H. apply Lang_class_inv in H as (d & -> & Hc).
    unfold class_matches in Hc. simpl in Hc.
    rewrite orb_false_r in Hc. apply Ascii.eqb_eq in Hc. now subst.
  - intros ->. constructor. unfold class_matches. simpl.
    now rewrite Ascii.eqb_refl.
Qed.

Lemma Lang_star_class (cc : charclass) (s : string) :
  Lang (RStar (RClass cc)) s <-> forallb_string (class_matches cc) s = true.
Proof.
  split.
  - intros H. remember (RStar (RClass cc)) as r eqn:Er.
    induction H as [| | | | | |r0 s1 s2 H1 _ H2 IH2]; try discriminate.
    + reflexivity.
    + inversion Er; subst r0.
      apply Lang_class_inv in H1 as (d & -> & Hc). simpl.
      rewrite Hc. now apply IH2.
  - induction s as [|c s IH]; simpl; intros H.
    + constructor.
    + apply andb_true_iff in H as [Hc Hs].
      change (String c s) with (String c "" ++ s).
      constructor; [now constructor | now apply IH].
Qed.

(** [[cc]+] : a non-empty string of characters of the class. *)
Lemma Lang_plus_class (cc : charclass) (s : string) :
  Lang (RPlus (RClass cc)) s
  <-> s <> "" /\ forallb_string (class_matches cc) s = true.
Proof.
  unfold RPlus. split.
  - intros H. apply Lang_seq_inv in H as (s1 & s2 & -> & H1 & H2).
    apply Lang_class_inv in H1 as (d & -> & Hc).
    apply Lang_star_class in H2. simpl.
    split; [discriminate | now apply andb_true_iff].
  - intros [Hn H]. destruct s as [|c s]; [congruence|].
    simpl in H. apply andb_true_iff in H as [Hc Hs].
    change (String c s) with (String c "" ++ s).
    constructor; [now constructor | now apply Lang_star_class].
Qed.

End RegexFacts.

(* ================================================================== *)
(** * Values: disjunction chains, the field the extractors pick *)
(* ================================================================== *)

Module ValueFacts.
Import JS World Monday Spec.

Lemma or_else3 (a b c : jsval) :
  a ||| b ||| c = if truthy a then a else if truthy b then b else c.
Proof.
  unfold or_else. destruct (truthy a) eqn:Ea; [now rewrite Ea|reflexivity].
Qed.

(** The [if] chain at the head of both extractors picks [chosen_field]. *)
Lemma chain_chosen_field (v : jsval) :
  (if is_string v then v
   else if truthy v && truthy (opt_get v "text") then opt_get v "text"
   else if truthy v && truthy (opt_get v "value") then opt_get v "value"
   else JStr "")
  = chosen_field v.
Proof.
  unfold chosen_field.
  destruct v as [| |b|n|s|l|l]; rewrite ?or_else3; try reflexivity.
  - now destruct b.
  - simpl. now destruct ((n =? "0") || (n =? "NaN")).
Qed.

Lemma chosen_field_not_null (v : jsval) : chosen_field v <> JNull.
Proof.
  assert (T : forall a b, b <> JNull -> a ||| b <> JNull).
  { intros a b Hb. unfold or_else. destruct (truthy a) eqn:E; [|assumption].
    intros ->. discriminate. }
  destruct v; simpl; try discriminate; apply T; discriminate.
Qed.

(** Index names start with a digit, so a name that does not is no index:
    a string has no property [text] or [value]. *)
Lemma string_of_nat_starts_with_digit (m : nat) :
  exists c rest, string_of_nat m = String c rest /\ is_digit c = true.
Proof.
  unfold string_of_nat.
  destruct (Nat.to_uint m); simpl; do 2 eexists; split; reflexivity.
Qed.

Lemma index_of_name_none (name : string) (n : nat) :
  match name with String c _ => is_digit c | EmptyString => false end = false
  -> index_of_name name n = None.
Proof.
  intros H. induction n as [|m IH]; simpl; [reflexivity|].
  destruct (string_of_nat_starts_with_digit m) as (c & rest & E & D).
  destruct (String.eqb_spec (string_of_nat m) name) as [<-|_]; [|exact IH].
  rewrite E in H. congruence.
Qed.

Lemma string_has_no_text (s : string) :
  opt_get (JStr s) "text" = JUndefined /\ opt_get (JStr s) "value" = JUndefined.
Proof.
  unfold opt_get. simpl. now rewrite !index_of_name_none.
Qed.

Lemma falsy_keys (v : jsval) : truthy v = false -> keys v = [].
Proof.
  destruct v as [| |b|n|s|l|l]; try reflexivity; simpl; try discriminate.
  destruct s; [reflexivity | discriminate].
Qed.

Lemma get_not_nullish (v : jsval) (name : string) :
  nullish v = false -> get v name = Ok (opt_get v name).
Proof. unfold get. now intros ->. Qed.

(** A conversion to string that throws throws a [TypeError]. *)
Lemma toString_throws_TypeError (v : jsval) :
  forall e, toString v = Throw e -> e = TypeError.
Proof.
  revert v. fix IH 1. intros v e.
  destruct v as [| |b|t|s|l|props]; cbn [toString];
    try (try destruct b; discriminate).
  - induction l as [|x rest IHl]; [discriminate|].
    assert (X : forall e', (if nullish x then Ok ""%string else toString x)
                           = Throw e' -> e' = TypeError).
    { intros e'. destruct (nullish x); [discriminate|]. apply IH. }
    destruct (if nullish x then Ok ""%string else toString x) as [a|e'].
    + cbn [rbind]. destruct rest as [|y rest']; [discriminate|].
      match goal with
      | |- context [rbind ?m _] => destruct m as [b0|e''] eqn:J
      end.
      * discriminate.
      * cbn [rbind]. intros H. inversion H; subst e''. now apply IHl.
    + cbn [rbind]. intros H. inversion H; subst e'. now apply X.
  - destruct (has_own props "toString"); intros H;
      [now inversion H | discriminate].
Qed.

End ValueFacts.

(* ================================================================== *)
(** * Field extractor: e-mail validation *)
(* ================================================================== *)

Module EmailFacts.
Import JS World Monday Spec StringFacts RegexFacts ValueFacts.

Lemma nonSpaceAt_matches (c : ascii) :
  class_matches nonSpaceAt c = negb (is_space c) && negb (Ascii.eqb c "@").
Proof.
  unfold class_matches. simpl. rewrite orb_false_r.
  now destruct (is_space c), (Ascii.eqb c "@").
Qed.

Lemma part_chars (x : string) :
  forallb_string (class_matches nonSpaceAt) x = true
  <-> forallb_string (fun c => negb (is_space c)) x = true
      /\ count_char "@" x = 0.
Proof.
  rewrite (forallb_string_ext _ _ x nonSpaceAt_matches).
  rewrite forallb_string_and, andb_true_iff, count_char_zero.
  reflexivity.
Qed.

Lemma emailRegex_Lang (s : string) :
  Lang emailRegex s
  <-> exists l d t, s = l ++ "@" ++ d ++ "." ++ t
                    /\ part l /\ part d /\ part t.
Proof.
  unfold emailRegex, part. split.
  - intros H.
    apply Lang_seq_inv in H as (l & s1 & -> & Hl & H).
    apply Lang_seq_inv in H as (a & s2 & -> & Ha & H).
    apply Lang_seq_inv in H as (d & s3 & -> & Hd & H).
    apply Lang_seq_inv in H as (p & t & -> & Hp & Ht).
    apply Lang_lit in Ha, Hp. subst a p.
    apply Lang_plus_class in Hl, Hd, Ht.
    exists l, d, t. auto.
  - intros (l & d & t & -> & Hl & Hd & Ht).
    apply Lang_plus_class in Hl, Hd, Ht.
    repeat (constructor; try assumption); now apply Lang_lit.
Qed.

(** The expression describes exactly the pattern of the specification. *)
Lemma emailRegex_pattern (s : string) :
  full_match emailRegex s = true <-> email_pattern s.
Proof.
  rewrite full_match_Lang, emailRegex_Lang. unfold email_pattern, part.
  split.
  - intros (l & d & t & -> & [Nl Hl] & [Nd Hd] & [Nt Ht]).
    apply part_chars in Hl as [Sl Cl], Hd as [Sd Cd], Ht as [St Ct].
    exists l, d, t. repeat split; try assumption.
    + unfold no_whitespace. rewrite !forallb_string_app, Sl, Sd, St.
      reflexivity.
    + rewrite !count_char_app, Cl, Cd, Ct. reflexivity.
  - intros (l & d & t & -> & Nl & Nd & Nt & S & C).
    unfold no_whitespace in S. rewrite !forallb_string_app in S.
    rewrite !count_char_app in C. simpl in C.
    repeat (apply andb_true_iff in S as [? S]).
    exists l, d, t.
    repeat split; try assumption; apply part_chars; split;
      try assumption; lia.
Qed.

Lemma extractEmail_chosen (v : jsval) :
  extractEmail v
  = match toString (chosen_field v) with
    | Ok s => if full_match emailRegex s then chosen_field v else JNull
    | Throw _ => JNull
    end.
Proof.
  unfold extractEmail, test. rewrite chain_chosen_field.
  destruct (toString (chosen_field v)) as [s|e]; [|reflexivity].
  cbn [rbind rcatch]. now destruct (full_match emailRegex s).
Qed.

(** C8 (as the code has it): e-mail validation picks the text of its input
    (the string itself, else its non-empty [text], else its non-empty
    [value], else the empty string), converts the picked value to a string,
    and accepts, returning the picked value, if and only if the conversion
    succeeds and the string has the form local@domain.tld with the three
    parts non-empty, no whitespace and exactly one [@] (hence a dot after
    it); otherwise the result is [null].  On a string input this is the
    validation the specification words.  ["a@b.com"] is accepted and
    ["not-an-email"] is not. *)
Theorem extractEmail_accepts_pattern (v : jsval) :
  (extractEmail v <> JNull
   <-> exists s, toString (chosen_field v) = Ok s /\ email_pattern s)
  /\ (extractEmail v = JNull \/ extractEmail v = chosen_field v)
  /\ (is_string v = true ->
      (extractEmail v <> JNull <-> email_accepted_as_worded v))
  /\ extractEmail (JStr "a@b.com") = JStr "a@b.com"
  /\ extractEmail (JStr "not-an-email") = JNull.
Proof.
  assert (Ex : extractEmail (JStr "a@b.com") = JStr "a@b.com"
               /\ extractEmail (JStr "not-an-email") = JNull)
    by (split; reflexivity).
  assert (A : extractEmail v <> JNull
              <-> exists s, toString (chosen_field v) = Ok s
                            /\ email_pattern s).
  { rewrite extractEmail_chosen.
    destruct (toString (chosen_field v)) as [s|e].
    - destruct (full_match emailRegex s) eqn:F.
      + split; [|intros _; apply chosen_field_not_null].
        intros _. exists s. split; [reflexivity|].
        now apply emailRegex_pattern.
      + split; [intros H; now elim H|].
        intros (s' & E & P). inversion E; subst s'.
        apply emailRegex_pattern in P. congruence.
    - split; [intros H; now elim H|]. intros (s' & E & _). discriminate. }
  split; [exact A|]. split; [|split; [|exact Ex]].
  - rewrite extractEmail_chosen.
    destruct (toString (chosen_field v)) as [s|e]; [|now left].
    destruct (full_match emailRegex s); [now right | now left].
  - intros S. destruct v; try discriminate. exact A.
Qed.

(** C8, counterexample: the array [["a@b.com"]] converts to the string
    ["a@b.com"], which has the form local@domain.tld, so validation as
    worded accepts it; the code looks for a [text] or a [value] in it,
    finds none, tests the empty string and returns [null]. *)
Lemma extractEmail_array_not_coerced :
  toString (JArr [JStr "a@b.com"]) = Ok "a@b.com"
  /\ email_accepted_as_worded (JArr [JStr "a@b.com"])
  /\ extractEmail (JArr [JStr "a@b.com"]) = JNull.
Proof.
  split; [reflexivity|]. split; [|reflexivity].
  exists "a@b.com". split; [reflexivity|].
  apply emailRegex_pattern. reflexivity.
Qed.

End EmailFacts.

(* ================================================================== *)
(** * Field extractor: phone normalisation *)
(* ================================================================== *)

Module PhoneFacts.
Import JS World Monday Spec StringFacts ValueFacts.

Lemma filter_string_ext (p q : ascii -> bool) (s : string) :
  (forall c, p c = q c) -> filter_string p s = filter_string q s.
Proof.
  intros E. induction s as [|x s IH]; simpl; [reflexivity|].
  now rewrite E, IH.
Qed.

(** [replace(/[^\d+]/g, '')] keeps the digits and every [+]. *)
Lemma replace_nonDigitPlus (s : string) :
  replace_class_g nonDigitPlus s
  = filter_string (fun c => is_digit c || is_plus c) s.
Proof.
  unfold replace_class_g. apply filter_string_ext. intros c.
  unfold class_matches, is_plus. simpl. rewrite orb_false_r.
  now destruct (is_digit c || Ascii.eqb c "+").
Qed.

Ltac cmp_cases :=
  repeat match goal with
         | |- context [(?a =? ?b)%nat] => destruct (Nat.eqb_spec a b)
         | |- context [(?a <=? ?b)%nat] => destruct (Nat.leb_spec a b)
         | |- context [(?a <? ?b)%nat] => destruct (Nat.ltb_spec a b)
         end.

Lemma extractPhone_kept (v : jsval) : extractPhone v = normalizePhone_kept v.
Proof.
  unfold extractPhone, normalizePhone_kept. rewrite chain_chosen_field.
  destruct (chosen_field v) as [| |b|n|raw|l|l]; try reflexivity.
  unfold as_string, rbind, rcatch. cbv beta iota zeta.
  rewrite replace_nonDigitPlus.
  set (kept := filter_string _ raw).
  destruct (startsWith kept "+");
    destruct (Nat.eqb_spec (String.length kept) 11);
    destruct (Nat.eqb_spec (String.length kept) 10);
    cbn [andb negb];
    try change (String.length ("+55" ++ kept))
      with (3 + String.length kept);
    cmp_cases; try reflexivity; lia.
Qed.

(** What comes out is [null] or a string of at least ten characters, each
    a digit or a [+]. *)
Lemma extractPhone_shape (v : jsval) :
  match extractPhone v with
  | JNull => True
  | JStr p =>
      10 <= String.length p
      /\ forallb_string (fun c => is_digit c || is_plus c) p = true
  | _ => False
  end.
Proof.
  rewrite extractPhone_kept. unfold normalizePhone_kept.
  destruct (chosen_field v) as [| |b|n|raw|l|l]; try exact I.
  set (kept := filter_string _ raw).
  assert (K : forallb_string (fun c => is_digit c || is_plus c) kept = true)
    by apply forallb_filter_string.
  destruct (String.length kept <? 10)%nat eqn:L; [exact I|].
  apply Nat.ltb_ge in L.
  destruct ((String.length kept <=? 11)%nat && negb (startsWith kept "+")).
  - split; [simpl; lia | simpl; exact K].
  - split; assumption.
Qed.

Lemma filter_filter_string (p q : ascii -> bool) (s : string) :
  (forall c, p c = true -> q c = true) ->
  filter_string p (filter_string q s) = filter_string p s.
Proof.
  intros H. induction s as [|x s IH]; simpl; [reflexivity|].
  destruct (q x) eqn:Q; simpl; destruct (p x) eqn:P; rewrite ?IH;
    try reflexivity.
  apply H in P. congruence.
Qed.

Lemma plus_free_digits (rest : string) :
  forallb_string (fun c => is_digit c || is_plus c) rest = true ->
  count_char "+" rest = 0 ->
  filter_string is_digit rest = rest.
Proof.
  induction rest as [|x rest IH]; simpl; [reflexivity|].
  intros K C. apply andb_true_iff in K as [Kx K].
  unfold is_plus in Kx. destruct (Ascii.eqb x "+"); [discriminate|].
  rewrite orb_false_r in Kx. rewrite Kx, IH; auto.
Qed.

Lemma spec_raw_string (s : string) :
  rcatch
    (toString (opt_get (JStr s) "text" ||| opt_get (JStr s) "value"
               ||| JStr s))
    (fun _ => "")
  = s.
Proof. now destruct (string_has_no_text s) as [-> ->]. Qed.

Lemma startsWith_plus (c : ascii) (rest : string) :
  startsWith (String c rest) "+" = is_plus c.
Proof.
  unfold startsWith, is_plus. cbn [String.prefix].
  destruct (ascii_dec "+" c) as [<-|N].
  - now destruct rest.
  - symmetry. apply Ascii.eqb_neq. congruence.
Qed.

(** On inputs whose [+] signs reduce to a leading one, the code does what
    the specification words. *)
Lemma extractPhone_agrees_with_spec (s : string) :
  plus_only_leading s ->
  extractPhone (JStr s) = normalizePhone_spec (JStr s).
Proof.
  intros H. rewrite extractPhone_kept.
  unfold normalizePhone_kept, normalizePhone_spec, plus_only_leading in *.
  rewrite spec_raw_string. cbn [chosen_field].
  rewrite <- (filter_filter_string is_digit
                (fun c => is_digit c || is_plus c) s)
    by (intros c ->; reflexivity).
  pose proof (forallb_filter_string (fun c => is_digit c || is_plus c) s)
    as K.
  destruct (filter_string (fun c => is_digit c || is_plus c) s)
    as [|c rest]; [reflexivity|].
  cbn [forallb_string] in K. apply andb_true_iff in K as [Kc K].
  rewrite startsWith_plus. cbv zeta.
  destruct (is_plus c) eqn:P.
  - assert (D : is_digit c = false).
    { unfold is_plus in P. apply Ascii.eqb_eq in P. now subst c. }
    cbn [filter_string]. rewrite D, (plus_free_digits rest K H).
    cbn [negb]. rewrite !andb_false_r.
    change (String.length ("+" ++ rest)) with (S (String.length rest)).
    change (String.length (String c rest)) with (S (String.length rest)).
    unfold is_plus in P. apply Ascii.eqb_eq in P. subst c.
    cmp_cases; try reflexivity; lia.
  - rewrite orb_false_r in Kc.
    cbn [filter_string]. rewrite Kc, (plus_free_digits rest K H).
    cbn [negb]. rewrite !andb_true_r.
    change (String.length (String c rest)) with (S (String.length rest)).
    destruct (Nat.eqb_spec (S (String.length rest)) 10);
      destruct (Nat.eqb_spec (S (String.length rest)) 11);
      cbn [orb];
      try change (String.length ("+55" ++ String c rest))
        with (3 + S (String.length rest));
      try change (String.length (String c rest))
        with (S (String.length rest));
      cmp_cases; try reflexivity; lia.
Qed.

(** C3 (as the code has it): phone normalisation picks the text of its
    input (the string itself, else its [text], else its [value]; a picked
    value that is not a string gives [null]), removes every character
    except digits and [+] signs, wherever they stand, puts ["+55"] in front
    exactly when what is left has length 10 or 11 and does not start with
    [+], and returns the result when its length is at least 10, [null]
    otherwise.  The result holds digits and [+] only.  On a string whose
    [+] signs reduce to a leading one this is the normalisation the
    specification words.
    ["11999999999"] gives ["+5511999999999"]; ["999999999"] gives [null]. *)
Theorem extractPhone_keeps_every_plus (v : jsval) :
  extractPhone v = normalizePhone_kept v
  /\ match extractPhone v with
     | JNull => True
     | JStr p =>
         10 <= String.length p
         /\ forallb_string (fun c => is_digit c || is_plus c) p = true
     | _ => False
     end
  /\ (forall s, v = JStr s -> plus_only_leading s ->
                extractPhone v = normalizePhone_spec v)
  /\ extractPhone (JStr "11999999999") = JStr "+5511999999999"
  /\ extractPhone (JStr "999999999") = JNull.
Proof.
  split; [apply extractPhone_kept|].
  split; [apply extractPhone_shape|].
  split; [intros s -> H; now apply extractPhone_agrees_with_spec|].
  split; reflexivity.
Qed.

(** C3, counterexample: with a [+] inside the number the code keeps it and
    counts it; ["12345+6789"] has nine digits, which the claim maps to
    absent, and the code returns ["+5512345+6789"]. *)
Lemma extractPhone_inner_plus :
  extractPhone (JStr "12345+6789") = JStr "+5512345+6789"
  /\ normalizePhone_spec (JStr "12345+6789") = JNull
  /\ extractPhone (JStr "12345+6789")
     <> normalizePhone_spec (JStr "12345+6789").
Proof. repeat split; try reflexivity. discriminate. Qed.

End PhoneFacts.

(* ================================================================== *)
(** * Webhook normaliser *)
(* ================================================================== *)

Module NormalizerFacts.
Import JS World Monday Spec Examples ValueFacts.

Lemma some_keywords (keywords : list string) (s : string) :
  some keywords (fun keyword =>
    let? t := as_string (JStr s) in Ok (includes (toLowerCase t) keyword))
  = Ok (has_keyword keywords s).
Proof.
  unfold has_keyword.
  induction keywords as [|k keywords IH]; simpl; [reflexivity|].
  destruct (includes (toLowerCase s) k); [reflexivity | exact IH].
Qed.

Lemma isPhoneColumn_string (s : string) :
  isPhoneColumn (JStr s) = Ok (has_keyword phoneKeywords s).
Proof. apply some_keywords. Qed.

Lemma isEmailColumn_string (s : string) :
  isEmailColumn (JStr s) = Ok (has_keyword emailKeywords s).
Proof. apply some_keywords. Qed.

Lemma isCompanyColumn_string (s : string) :
  isCompanyColumn (JStr s) = Ok (has_keyword companyKeywords s).
Proof. apply some_keywords. Qed.

(** On the keys of a column map the callback never throws, and tries the
    three roles one after the other. *)
Lemma webhook_column_Ok (cv : jsval) (k : string) (ld : LeadData) :
  webhook_column cv k ld = Ok (webhook_column_independent cv k ld).
Proof.
  unfold webhook_column.
  rewrite isPhoneColumn_string, isEmailColumn_string, isCompanyColumn_string.
  reflexivity.
Qed.

Lemma webhook_column_phone (cv : jsval) (k : string) (ld : LeadData) :
  phone (webhook_column_independent cv k ld)
  = if applied phoneKeywords cv k then extractPhone (opt_get cv k)
    else phone ld.
Proof.
  unfold webhook_column_independent.
  now destruct (applied phoneKeywords cv k), (applied emailKeywords cv k),
    (applied companyKeywords cv k).
Qed.

Lemma webhook_column_email (cv : jsval) (k : string) (ld : LeadData) :
  email (webhook_column_independent cv k ld)
  = if applied emailKeywords cv k then extractEmail (opt_get cv k)
    else email ld.
Proof.
  unfold webhook_column_independent.
  now destruct (applied phoneKeywords cv k), (applied emailKeywords cv k),
    (applied companyKeywords cv k).
Qed.

Lemma webhook_column_company (cv : jsval) (k : string) (ld : LeadData) :
  company (webhook_column_independent cv k ld)
  = if applied companyKeywords cv k then company_text (opt_get cv k)
    else company ld.
Proof.
  unfold webhook_column_independent.
  now destruct (applied phoneKeywords cv k), (applied emailKeywords cv k),
    (applied companyKeywords cv k).
Qed.

Lemma webhook_column_mcpData (cv : jsval) (k : string) (ld : LeadData) :
  mcpData (webhook_column_independent cv k ld) = mcpData ld.
Proof.
  unfold webhook_column_independent.
  now destruct (applied phoneKeywords cv k), (applied emailKeywords cv k),
    (applied companyKeywords cv k).
Qed.

(** C2 (as the code has it): the callback tries the three roles
    independently of one another, so a column whose identifier has keywords
    of several roles contributes to each of them; the phone, e-mail and
    company fields change exactly for the roles that have a keyword in the
    identifier (case-insensitively) when the value is truthy.  For an
    identifier with keywords of at most one role this is the
    first-match-only behaviour. *)
Theorem webhook_column_roles_independent
  (cv : jsval) (k : string) (ld : LeadData) :
  exists ld',
    webhook_column cv k ld = Ok ld'
    /\ phone ld' = (if applied phoneKeywords cv k
                    then extractPhone (opt_get cv k) else phone ld)
    /\ email ld' = (if applied emailKeywords cv k
                    then extractEmail (opt_get cv k) else email ld)
    /\ company ld' = (if applied companyKeywords cv k
                      then company_text (opt_get cv k) else company ld)
    /\ (role_count k <= 1 -> ld' = webhook_column_exclusive cv k ld).
Proof.
  exists (webhook_column_independent cv k ld).
  split; [apply webhook_column_Ok|].
  split; [apply webhook_column_phone|].
  split; [apply webhook_column_email|].
  split; [apply webhook_column_company|].
  unfold role_count, webhook_column_independent, webhook_column_exclusive,
    classifyColumn, applied, company_text.
  destruct (has_keyword phoneKeywords k), (has_keyword emailKeywords k),
    (has_keyword companyKeywords k), (truthy (opt_get cv k));
    simpl; intros H; try reflexivity; lia.
Qed.

(** C2, counterexample: one column, [phone_email], with a value that is
    both a phone number and an address, fills the phone and the e-mail
    field of the record (nothing was fetched), where first-match-only
    classification gives it the phone role and leaves the e-mail
    untouched. *)
Lemma webhook_column_two_roles :
  classifyColumn "phone_email" = Some RolePhone
  /\ (exists ld t',
        fetchItemDetails env_offline_crm JUndefined (JNum 77) []
        = (Ok None, t')
        /\ processWebhook env_offline_crm body_phone_email []
           = (Ok (Some ld), t')
        /\ phone ld = JStr "+551234567890"
        /\ email ld = JStr "1234567890@b.co")
  /\ (exists ld',
        webhook_column columns_phone_email "phone_email" blank_lead = Ok ld'
        /\ email (webhook_column_exclusive columns_phone_email "phone_email"
                    blank_lead) = JNull
        /\ email ld' = JStr "1234567890@b.co"
        /\ ld' <> webhook_column_exclusive columns_phone_email "phone_email"
                    blank_lead).
Proof.
  split; [reflexivity|]. split.
  - do 2 eexists. repeat split; reflexivity.
  - eexists. split; [reflexivity|].
    split; [reflexivity|]. split; [reflexivity | discriminate].
Qed.

Lemma overlay_cons (keywords : list string) (cv : jsval)
  (extract : jsval -> jsval) (k : string) (l : list string) (old : jsval) :
  overlay (last_applied_in keywords cv l) extract
    (if applied keywords cv k then extract (opt_get cv k) else old)
  = overlay (last_applied_in keywords cv (k :: l)) extract old.
Proof.
  unfold last_applied_in, overlay. simpl.
  destruct (applied keywords cv k); [|reflexivity].
  simpl. now destruct (rev (filter (applied keywords cv) l)).
Qed.

(** The loop over the column map: each field ends as its last applied
    column leaves it, or as it was. *)
Lemma forEach_webhook_columns (cv : jsval) (l : list string) :
  forall ld, exists ld',
    forEach l (webhook_column cv) ld = Ok ld'
    /\ phone ld'
       = overlay (last_applied_in phoneKeywords cv l) extractPhone (phone ld)
    /\ email ld'
       = overlay (last_applied_in emailKeywords cv l) extractEmail (email ld)
    /\ company ld'
       = overlay (last_applied_in companyKeywords cv l) company_text
           (company ld)
    /\ mcpData ld' = mcpData ld.
Proof.
  induction l as [|k l IH]; intros ld.
  - exists ld. now repeat split.
  - simpl. rewrite webhook_column_Ok. cbn [rbind].
    destruct (IH (webhook_column_independent cv k ld))
      as (ld' & E & P & M & C & D).
    exists ld'. split; [exact E|].
    rewrite P, M, C, D, webhook_column_phone, webhook_column_email,
      webhook_column_company, webhook_column_mcpData, !overlay_cons.
    now repeat split.
Qed.

(** [fetchItemDetails] sends at most one query and always returns. *)
Lemma fetchItemDetails_returns (env : Env) (b i : jsval) (t : list Event) :
  exists d, fetchItemDetails env b i t = (Ok d, fetch_trace t i).
Proof.
  cbv [fetchItemDetails try_catch bind monday_post emit ret throw lift
       fetch_trace].
  destruct (toString i) as [q|e]; [|now exists None].
  destruct (monday_api env i) as [data|m r]; [|now exists None].
  match goal with
  | |- context [if ?c then _ else _] => destruct c
  end; [now exists None|].
  match goal with
  | |- context [match ?r with Ok _ => _ | Throw _ => _ end] =>
      destruct r as [d|e]
  end; [now exists d | now exists None].
Qed.

Lemma recognized_not_nullish (w : jsval) :
  recognized (event_type w) = true -> nullish w = false.
Proof. destruct w; try reflexivity; discriminate. Qed.

(** What [processWebhook] does with a recognized event: the fetch from
    Monday.com, then the record, seeded from the fetched item and
    overlaid with the webhook columns. *)
Lemma processWebhook_accepted (env : Env) (w : jsval) (t : list Event) :
  recognized (event_type w) = true ->
  exists d ld,
    let t' := fetch_trace t (resolved_item w) in
    fetchItemDetails env (resolved_board w) (resolved_item w) t = (Ok d, t')
    /\ processWebhook env w t = (Ok (Some ld), t')
    /\ phone ld = webhook_over_fetch (last_applied phoneKeywords (column_map w))
                    extractPhone (opt_field item_phone d)
    /\ email ld = webhook_over_fetch (last_applied emailKeywords (column_map w))
                    extractEmail (opt_field item_email d)
    /\ company ld
       = webhook_over_fetch (last_applied companyKeywords (column_map w))
           company_text (opt_field item_company d)
    /\ mcpData ld = d.
Proof.
  intros R. pose proof (recognized_not_nullish w R) as N.
  destruct (fetchItemDetails_returns env (resolved_board w) (resolved_item w) t)
    as [d F].
  cbv [processWebhook try_catch bind lift ret].
  rewrite (get_not_nullish w "event" N).
  unfold recognized, event_type in R.
  replace (negb (strict_eq_str (opt_get (opt_get w "event") "type")
                   "create_pulse")
           && negb (strict_eq_str (opt_get (opt_get w "event") "type")
                      "change_column_value"
                    || strict_eq_str (opt_get (opt_get w "event") "type")
                         "update_column_value"))
    with false
    by (destruct (strict_eq_str _ "create_pulse"),
          (strict_eq_str _ "change_column_value"),
          (strict_eq_str _ "update_column_value");
        simpl in *; congruence).
  fold (resolved_item w) (resolved_board w).
  rewrite F. fold (column_map w).
  unfold webhook_over_fetch, last_applied.
  destruct (truthy (column_map w)) eqn:T.
  - match goal with
    | |- context [forEach ?l ?f ?x] =>
        destruct (forEach_webhook_columns (column_map w) l x)
          as (ld & E & P & M & C & D)
    end.
    rewrite E. exists d, ld. simpl in P, M, C, D. now repeat split.
  - rewrite (falsy_keys _ T). eexists d, _.
    repeat split; reflexivity.
Qed.

Lemma recognized_tokens (v : jsval) :
  recognized v = true
  <-> v = JStr "create_pulse" \/ v = JStr "change_column_value"
      \/ v = JStr "update_column_value".
Proof.
  unfold recognized, strict_eq_str. split.
  - destruct v as [| |b|n|s|l|l]; try discriminate.
    rewrite !orb_true_iff, !String.eqb_eq.
    intros [[->| ->]| ->]; auto.
  - intros [->|[->| ->]]; reflexivity.
Qed.

(** An event of another type is answered [null] before anything is sent. *)
Lemma processWebhook_unrecognized (env : Env) (w : jsval) (t : list Event) :
  recognized (event_type w) = false -> processWebhook env w t = (Ok None, t).
Proof.
  intros R. cbv [processWebhook try_catch bind lift ret].
  destruct (nullish w) eqn:N.
  - unfold get. now rewrite N.
  - rewrite (get_not_nullish w "event" N).
    unfold recognized, event_type in R.
    replace (negb (strict_eq_str (opt_get (opt_get w "event") "type")
                     "create_pulse")
             && negb (strict_eq_str (opt_get (opt_get w "event") "type")
                        "change_column_value"
                      || strict_eq_str (opt_get (opt_get w "event") "type")
                           "update_column_value"))
      with true; [reflexivity|].
    destruct (strict_eq_str _ "create_pulse"),
      (strict_eq_str _ "change_column_value"),
      (strict_eq_str _ "update_column_value"); simpl in *; congruence.
Qed.

(** C1: for a recognized event the normaliser returns a record whose
    phone, e-mail and company are seeded from what [fetchItemDetails]
    returned ([null] when it returned nothing) and then overwritten by the
    webhook's column map: for each of the three fields, when the map has an
    applied column of the role (identifier with a keyword of the role,
    truthy value) the field is what the last such column gives, whatever
    was fetched; otherwise it is the fetched value. *)
Theorem processWebhook_webhook_over_fetch
  (env : Env) (w : jsval) (t : list Event) :
  recognized (event_type w) = true ->
  exists d ld t',
    fetchItemDetails env (resolved_board w) (resolved_item w) t = (Ok d, t')
    /\ processWebhook env w t = (Ok (Some ld), t')
    /\ phone ld = webhook_over_fetch (last_applied phoneKeywords (column_map w))
                    extractPhone (opt_field item_phone d)
    /\ email ld = webhook_over_fetch (last_applied emailKeywords (column_map w))
                    extractEmail (opt_field item_email d)
    /\ company ld
       = webhook_over_fetch (last_applied companyKeywords (column_map w))
           company_text (opt_field item_company d).
Proof.
  intros R.
  destruct (processWebhook_accepted env w t R) as (d & ld & F & P & H).
  exists d, ld, (fetch_trace t (resolved_item w)).
  split; [exact F|]. split; [exact P|]. tauto.
Qed.

Lemma processWebhook_webhook_over_fetch_witness :
  exists d ld t',
    fetchItemDetails env_unconfigured (resolved_board body_one_phone)
      (resolved_item body_one_phone) [] = (Ok d, t')
    /\ processWebhook env_unconfigured body_one_phone [] = (Ok (Some ld), t')
    /\ phone ld
       = webhook_over_fetch
           (last_applied phoneKeywords (column_map body_one_phone))
           extractPhone (opt_field item_phone d)
    /\ email ld
       = webhook_over_fetch
           (last_applied emailKeywords (column_map body_one_phone))
           extractEmail (opt_field item_email d)
    /\ company ld
       = webhook_over_fetch
           (last_applied companyKeywords (column_map body_one_phone))
           company_text (opt_field item_company d).
Proof.
  apply (processWebhook_webhook_over_fetch env_unconfigured body_one_phone []).
  reflexivity.
Defined.

(** The run on [body_one_phone]: the fetched phone is replaced by the
    webhook's, the fetched company stays. *)
Example processWebhook_one_phone_run :
  exists d ld t',
    fetchItemDetails env_unconfigured JUndefined (JNum 77) []
    = (Ok (Some d), t')
    /\ processWebhook env_unconfigured body_one_phone [] = (Ok (Some ld), t')
    /\ item_phone d = JStr "+5511888888888"
    /\ phone ld = JStr "+5511999999999"
    /\ company ld = JStr "ACME".
Proof.
  exists fetched_item, lead_one_phone, [MondayQuery (JNum 77)].
  repeat split; vm_compute; reflexivity.
Qed.

(** C9 (as the code has it): for a recognized event, when the last applied
    phone column of the webhook's column map has a value that phone
    extraction rejects, the record's phone is [null] whatever was fetched;
    the same holds for the e-mail with the last applied e-mail column. *)
Theorem failed_last_column_clears_field
  (env : Env) (w : jsval) (t : list Event) :
  recognized (event_type w) = true ->
  exists ld t',
    processWebhook env w t = (Ok (Some ld), t')
    /\ (forall v, last_applied phoneKeywords (column_map w) = Some v ->
                  extractPhone v = JNull -> phone ld = JNull)
    /\ (forall v, last_applied emailKeywords (column_map w) = Some v ->
                  extractEmail v = JNull -> email ld = JNull).
Proof.
  intros R.
  destruct (processWebhook_accepted env w t R)
    as (d & ld & F & P & Hp & He & _).
  exists ld, (fetch_trace t (resolved_item w)).
  split; [exact P|]. split; intros v L E.
  - rewrite Hp, L. exact E.
  - rewrite He, L. exact E.
Qed.

Lemma failed_last_column_clears_field_witness :
  exists ld t',
    processWebhook env_unconfigured body_bad_phone [] = (Ok (Some ld), t')
    /\ (forall v,
          last_applied phoneKeywords (column_map body_bad_phone) = Some v ->
          extractPhone v = JNull -> phone ld = JNull)
    /\ (forall v,
          last_applied emailKeywords (column_map body_bad_phone) = Some v ->
          extractEmail v = JNull -> email ld = JNull).
Proof.
  apply (failed_last_column_clears_field env_unconfigured body_bad_phone []).
  reflexivity.
Defined.

(** The run on [body_bad_phone]: the phone that was fetched is lost. *)
Example processWebhook_bad_phone_run :
  exists d ld t',
    fetchItemDetails env_unconfigured JUndefined (JNum 77) []
    = (Ok (Some d), t')
    /\ processWebhook env_unconfigured body_bad_phone [] = (Ok (Some ld), t')
    /\ item_phone d = JStr "+5511888888888"
    /\ last_applied phoneKeywords (column_map body_bad_phone)
       = Some (JStr "123")
    /\ extractPhone (JStr "123") = JNull
    /\ phone ld = JNull.
Proof.
  exists fetched_item, (set_phone lead_one_phone JNull),
    [MondayQuery (JNum 77)].
  repeat split; vm_compute; reflexivity.
Qed.

(** C9, counterexample: the map holds the applied phone column [phone]
    whose value fails extraction, followed by the applied phone column
    [mobile] whose value passes; the record's phone is not absent. *)
Lemma failed_column_then_good_column :
  applied phoneKeywords (column_map body_bad_then_good_phone) "phone" = true
  /\ extractPhone (opt_get (column_map body_bad_then_good_phone) "phone")
     = JNull
  /\ exists ld t',
       processWebhook env_unconfigured body_bad_then_good_phone []
       = (Ok (Some ld), t')
       /\ phone ld = JStr "+5511999999999"
       /\ phone ld <> JNull.
Proof.
  split; [reflexivity|]. split; [reflexivity|].
  exists lead_one_phone, [MondayQuery (JNum 77)].
  split; [vm_compute; reflexivity|].
  split; [reflexivity | discriminate].
Qed.

End NormalizerFacts.

(* ================================================================== *)
(** * Call request builder and call initiation *)
(* ================================================================== *)

Module CallFacts.
Import JS World Monday ElevenLabs Spec Examples ValueFacts.

(** C7: [prepareCallData] sets [customer_name] to the record's name, and
    to ["Customer"] when the name is empty or absent; it sets
    [company_name] to the first non-empty of the fetched item's
    [lead_company] column, the record's company, and the fixed string
    ["your restaurant"]. *)
Theorem prepareCallData_variables (env : Env) (ld : LeadData) :
  let vars := dynamic_variables (prepareCallData env ld) in
  customer_name vars = first_non_empty [name ld] (JStr "Customer")
  /\ match name ld with
     | JStr s => customer_name vars
                 = if (s =? "")%string then JStr "Customer" else JStr s
     | JUndefined | JNull => customer_name vars = JStr "Customer"
     | _ => True
     end
  /\ company_name vars
     = first_non_empty [lead_company ld; company ld] (JStr "your restaurant")
  /\ lead_company ld
     = match mcpData ld with
       | Some d => columns_get (columns d) "lead_company"
       | None => JUndefined
       end.
Proof.
  cbv zeta. split; [reflexivity|]. split.
  - simpl. unfold or_else. destruct (name ld) as [| |b|n|s|l|l]; trivial.
    simpl. now destruct (s =? "")%string.
  - split; [|reflexivity]. simpl. apply or_else3.
Qed.

(** Without credentials [initiateCall] sends nothing and returns the
    simulated result. *)
Lemma initiateCall_unconfigured (env : Env) (ld : LeadData) (t : list Event) :
  truthy (ELEVENLABS_API_KEY env) = false
  \/ truthy (ELEVENLABS_AGENT_ID env) = false ->
  initiateCall env ld t = (Ok (simulateCall env ld), t).
Proof.
  intros H. cbv [initiateCall try_catch throw ret].
  assert (C : negb (truthy (ELEVENLABS_API_KEY env))
              || negb (truthy (ELEVENLABS_AGENT_ID env)) = true).
  { destruct H as [-> | ->]; [reflexivity | apply orb_true_r]. }
  rewrite C. reflexivity.
Qed.

(** C5: when the API key or the agent identifier is absent, [initiateCall]
    throws nothing and sends nothing: it returns the simulated result, which
    has the success flag, the simulation flag, the status ["simulated"] and
    a synthetic call identifier ["sim_"] followed by the clock reading. *)
Theorem initiateCall_simulates_without_credentials
  (env : Env) (ld : LeadData) (t : list Event) :
  truthy (ELEVENLABS_API_KEY env) = false
  \/ truthy (ELEVENLABS_AGENT_ID env) = false ->
  exists r,
    initiateCall env ld t = (Ok r, t)
    /\ success r = JBool true
    /\ simulation r = JBool true
    /\ status r = JStr "simulated"
    /\ call_id r = JStr ("sim_" ++ string_of_Z (date_now env))
    /\ called_phone r = phone ld.
Proof.
  intros H. exists (simulateCall env ld).
  split; [now apply initiateCall_unconfigured|].
  repeat split.
Qed.

Lemma initiateCall_simulates_without_credentials_witness :
  exists r,
    initiateCall env_unconfigured lead_with_phone [] = (Ok r, [])
    /\ success r = JBool true
    /\ simulation r = JBool true
    /\ status r = JStr "simulated"
    /\ call_id r = JStr ("sim_" ++ string_of_Z (date_now env_unconfigured))
    /\ called_phone r = phone lead_with_phone.
Proof.
  apply (initiateCall_simulates_without_credentials
           env_unconfigured lead_with_phone []).
  left. reflexivity.
Defined.

End CallFacts.

(* ================================================================== *)
(** * HTTP relay *)
(* ================================================================== *)

Module RelayFacts.
Import JS World Monday ElevenLabs Server Spec Examples ValueFacts
  NormalizerFacts CallFacts.

(** Past the challenge test the handler answers by what the normaliser
    returned. *)
Lemma webhook_monday_rejected (env : Env) (w : jsval) (t t' : list Event) :
  nullish w = false ->
  truthy (opt_get w "challenge") = false ->
  processWebhook env w t = (Ok None, t') ->
  webhook_monday env w t = (Ok response_invalid, t').
Proof.
  intros N C P. cbv [webhook_monday try_catch bind lift ret].
  rewrite (get_not_nullish w "challenge" N), C, P. reflexivity.
Qed.

Lemma webhook_monday_no_phone (env : Env) (w : jsval) (t t' : list Event)
  (ld : LeadData) :
  nullish w = false ->
  truthy (opt_get w "challenge") = false ->
  processWebhook env w t = (Ok (Some ld), t') ->
  phone ld = JNull ->
  webhook_monday env w t = (Ok response_no_phone, t').
Proof.
  intros N C P H. cbv [webhook_monday try_catch bind lift ret].
  rewrite (get_not_nullish w "challenge" N), C, P, H. reflexivity.
Qed.

(** The manual trigger without credentials: a success response that
    carries the simulated result, and no request sent. *)
Lemma test_call_simulated (env : Env) (w : jsval) (t : list Event) :
  truthy (opt_get w "phone") = true ->
  truthy (ELEVENLABS_API_KEY env) = false
  \/ truthy (ELEVENLABS_AGENT_ID env) = false ->
  exists r,
    test_call env w t
    = (Ok {| status_code := 200;
             body := JObj [("success", JBool true);
                           ("message", JStr "Chamada de teste iniciada");
                           ("callResult", call_result_json r)] |}, t)
    /\ simulation r = JBool true
    /\ call_id r = JStr ("sim_" ++ string_of_Z (date_now env))
    /\ called_phone r = opt_get w "phone".
Proof.
  intros P H.
  assert (N : nullish w = false) by (destruct w; try reflexivity; discriminate).
  cbv [test_call try_catch bind lift ret].
  rewrite (get_not_nullish w "phone" N), P. cbn [negb].
  rewrite (initiateCall_unconfigured env _ t H).
  eexists. split; [reflexivity|]. repeat split.
Qed.

(** The fetch adds no call to the provider. *)
Lemma outbound_calls_fetch_trace (t : list Event) (i : jsval) :
  outbound_calls (fetch_trace t i) = outbound_calls t.
Proof.
  unfold fetch_trace, outbound_calls.
  destruct (toString i); [|reflexivity].
  rewrite filter_app. simpl. apply app_nil_r.
Qed.

(** With an unrecognized event the handler sends no request at all. *)
Lemma webhook_monday_unrecognized_trace
  (env : Env) (w : jsval) (t : list Event) :
  recognized (event_type w) = false -> snd (webhook_monday env w t) = t.
Proof.
  intros R. destruct (nullish w) eqn:N.
  - cbv [webhook_monday bind lift]. unfold get. now rewrite N.
  - destruct (truthy (opt_get w "challenge")) eqn:C.
    + cbv [webhook_monday bind lift ret].
      now rewrite (get_not_nullish w "challenge" N), C.
    + now rewrite (webhook_monday_rejected env w t t N C
                     (processWebhook_unrecognized env w t R)).
Qed.

(** C4: when the event type is not one of the tokens [create_pulse],
    [change_column_value], [update_column_value], the normaliser returns
    [null] without throwing and without sending anything, so it returns a
    record only for those three; the relay then sends no request, in
    particular none to the calling provider, and answers 400 unless the
    body carried a challenge. *)
Theorem unrecognized_event_rejected (env : Env) (w : jsval) (t : list Event) :
  ~ (event_type w = JStr "create_pulse"
     \/ event_type w = JStr "change_column_value"
     \/ event_type w = JStr "update_column_value") ->
  processWebhook env w t = (Ok None, t)
  /\ (forall ld t', processWebhook env w t <> (Ok (Some ld), t'))
  /\ outbound_calls (snd (webhook_monday env w t)) = outbound_calls t
  /\ (nullish w = false -> truthy (opt_get w "challenge") = false ->
      webhook_monday env w t = (Ok response_invalid, t)).
Proof.
  intros H.
  assert (R : recognized (event_type w) = false).
  { destruct (recognized (event_type w)) eqn:E; [|reflexivity].
    apply recognized_tokens in E. contradiction. }
  pose proof (processWebhook_unrecognized env w t R) as P.
  split; [exact P|]. split; [intros ld t'; rewrite P; discriminate|].
  split; [now rewrite webhook_monday_unrecognized_trace|].
  intros N C. now apply webhook_monday_rejected.
Qed.

Lemma unrecognized_event_rejected_witness :
  processWebhook env_offline_crm body_unknown_event [] = (Ok None, [])
  /\ (forall ld t',
        processWebhook env_offline_crm body_unknown_event []
        <> (Ok (Some ld), t'))
  /\ outbound_calls (snd (webhook_monday env_offline_crm body_unknown_event []))
     = outbound_calls []
  /\ (nullish body_unknown_event = false ->
      truthy (opt_get body_unknown_event "challenge") = false ->
      webhook_monday env_offline_crm body_unknown_event []
      = (Ok response_invalid, [])).
Proof.
  apply (unrecognized_event_rejected env_offline_crm body_unknown_event []).
  intros [H|[H|H]]; discriminate H.
Defined.

(** C6: for a recognized event without challenge for which neither the
    fetched item nor the webhook's column map yields a phone, the
    normaliser returns a record whose phone is [null]; the relay answers
    200 with the message "Lead sem telefone, ignorado" and sends nothing to
    the calling provider. *)
Theorem no_phone_ignored
  (env : Env) (w : jsval) (t t' : list Event) (d : option ItemData) :
  recognized (event_type w) = true ->
  truthy (opt_get w "challenge") = false ->
  fetchItemDetails env (resolved_board w) (resolved_item w) t = (Ok d, t') ->
  webhook_over_fetch (last_applied phoneKeywords (column_map w))
    extractPhone (opt_field item_phone d) = JNull ->
  exists ld,
    processWebhook env w t = (Ok (Some ld), t')
    /\ phone ld = JNull
    /\ webhook_monday env w t = (Ok response_no_phone, t')
    /\ outbound_calls t' = outbound_calls t.
Proof.
  intros R C F H.
  destruct (processWebhook_accepted env w t R)
    as (d' & ld & F' & P & Hp & _).
  cbv zeta in F', P. rewrite F in F'. inversion F'; subst d' t'.
  exists ld. rewrite H in Hp.
  split; [exact P|]. split; [exact Hp|]. split.
  - apply (webhook_monday_no_phone env w t _ ld); auto.
    now apply recognized_not_nullish.
  - apply outbound_calls_fetch_trace.
Qed.

Lemma no_phone_ignored_witness :
  exists ld,
    processWebhook env_offline_crm body_no_columns []
    = (Ok (Some ld), [MondayQuery (JNum 77)])
    /\ phone ld = JNull
    /\ webhook_monday env_offline_crm body_no_columns []
       = (Ok response_no_phone, [MondayQuery (JNum 77)])
    /\ outbound_calls [MondayQuery (JNum 77)] = outbound_calls [].
Proof.
  apply (no_phone_ignored env_offline_crm body_no_columns []
           [MondayQuery (JNum 77)] None); reflexivity.
Defined.

(** C10: [processWebhook] never throws: on every input and in every
    environment it returns a record or [null].  [fetchItemDetails] never
    throws either: a failing Monday.com request is absorbed and [null]
    returned in its place, and so is an item identifier that cannot be put
    into the query text, in which case no request is sent.  When the result
    of [processWebhook] is [null] (and the body carried no challenge) the
    relay answers with the 400 response. *)
Theorem processWebhook_never_throws (env : Env) (w : jsval) (t : list Event) :
  (exists r t', processWebhook env w t = (Ok r, t'))
  /\ (forall b i,
        exists d, fetchItemDetails env b i t = (Ok d, fetch_trace t i))
  /\ (forall b i message response,
        monday_api env i = AxiosError message response ->
        fetchItemDetails env b i t = (Ok None, fetch_trace t i))
  /\ (forall b i e,
        toString i = Throw e -> fetchItemDetails env b i t = (Ok None, t))
  /\ (forall c t',
        get w "challenge" = Ok c -> truthy c = false ->
        processWebhook env w t = (Ok None, t') ->
        webhook_monday env w t = (Ok response_invalid, t')).
Proof.
  split; [|split; [|split; [|split]]].
  - unfold processWebhook, try_catch.
    match goal with
    | |- context [match ?m with (_, _) => _ end] => destruct m as [[r|e] t']
    end; [now exists r, t' | now exists None, t'].
  - intros b i. apply fetchItemDetails_returns.
  - intros b i m r E.
    cbv [fetchItemDetails try_catch bind monday_post emit ret throw lift
         fetch_trace].
    destruct (toString i); [now rewrite E | reflexivity].
  - intros b i e E.
    cbv [fetchItemDetails try_catch bind monday_post emit ret throw lift].
    now rewrite E.
  - intros c t' G C P. unfold get in G.
    destruct (nullish w) eqn:N; [discriminate|].
    inversion G; subst c. now apply webhook_monday_rejected.
Qed.

End RelayFacts.

(* ================================================================== *)
(** * Column classification: keywords as substrings *)
(* ================================================================== *)

Module ClassifierFacts.
Import JS World Monday Spec Examples StringFacts ValueFacts NormalizerFacts.

Lemma prefix_occurs (k s : string) :
  String.prefix k s = true <-> exists b, s = k ++ b.
Proof.
  revert s. induction k as [|c k IH]; intros s.
  - split; [intros _; now exists s | intros _; now destruct s].
  - destruct s as [|d s]; cbn [String.prefix].
    + split; [discriminate | intros [b E]; discriminate].
    + destruct (ascii_dec c d) as [<-|N].
      * rewrite IH. split; intros [b E]; exists b.
        -- simpl. now rewrite E.
        -- simpl in E. now inversion E.
      * split; [discriminate|]. intros [b E]. simpl in E. congruence.
Qed.

(** [includes] is the substring test. *)
Lemma includes_occurs (s k : string) :
  includes s k = true <-> occurs_in k s.
Proof.
  unfold occurs_in. induction s as [|c s IH]; cbn [includes].
  - rewrite orb_false_r, prefix_occurs. split.
    + intros [b E]. now exists "", b.
    + intros (a & b & E). destruct a; [now exists b | discriminate].
  - rewrite orb_true_iff, prefix_occurs, IH. split.
    + intros [[b E]|(a & b & E)].
      * now exists "", b.
      * exists (String c a), b. simpl. now rewrite E.
    + intros (a & b & E). destruct a as [|x a].
      * left. now exists b.
      * right. simpl in E. inversion E. now exists a, b.
Qed.

Lemma occurs_in_trans (a b c : string) :
  occurs_in a b -> occurs_in b c -> occurs_in a c.
Proof.
  intros (x & y & ->) (u & v & ->).
  exists (u ++ x), (y ++ v). now rewrite !append_assoc.
Qed.

Lemma has_keyword_occurs (keywords : list string) (s : string) :
  has_keyword keywords s = true
  <-> exists keyword, In keyword keywords
                      /\ occurs_in keyword (toLowerCase s).
Proof.
  unfold has_keyword. rewrite existsb_exists.
  split; intros (k & I & H); exists k; (split; [exact I|]);
    now apply includes_occurs.
Qed.

(** X1: a column identifier is a phone (e-mail, company) column exactly
    when its lower-cased form contains one of the role's keywords as a
    contiguous substring. *)
Theorem classification_by_substring (s : string) :
  (isPhoneColumn (JStr s) = Ok true
   <-> exists keyword, In keyword phoneKeywords
                       /\ occurs_in keyword (toLowerCase s))
  /\ (isEmailColumn (JStr s) = Ok true
      <-> exists keyword, In keyword emailKeywords
                          /\ occurs_in keyword (toLowerCase s))
  /\ (isCompanyColumn (JStr s) = Ok true
      <-> exists keyword, In keyword companyKeywords
                          /\ occurs_in keyword (toLowerCase s)).
Proof.
  rewrite isPhoneColumn_string, isEmailColumn_string, isCompanyColumn_string.
  rewrite <- !has_keyword_occurs.
  repeat split; intros H; congruence.
Qed.

Lemma includes_weaken (s k k' : string) :
  occurs_in k' k -> includes s k = true -> includes s k' = true.
Proof.
  intros O H. apply includes_occurs. apply includes_occurs in H.
  now apply (occurs_in_trans k' k s).
Qed.

(** X2: two keywords of the e-mail set and one of the phone set are
    subsumed by shorter ones: a column is an e-mail column exactly when
    its lower-cased identifier contains ["mail"], and a phone column
    exactly when it contains ["phone"], ["tel"], ["celular"] or
    ["mobile"]. *)
Theorem subsumed_keywords (s : string) :
  isEmailColumn (JStr s) = Ok (includes (toLowerCase s) "mail")
  /\ isPhoneColumn (JStr s)
     = Ok (includes (toLowerCase s) "phone"
           || includes (toLowerCase s) "tel"
           || includes (toLowerCase s) "celular"
           || includes (toLowerCase s) "mobile").
Proof.
  rewrite isEmailColumn_string, isPhoneColumn_string.
  unfold has_keyword. cbn [existsb emailKeywords phoneKeywords].
  set (l := toLowerCase s).
  assert (E1 : includes l "email" = true -> includes l "mail" = true)
    by (apply includes_weaken; now exists "e", "").
  assert (E2 : includes l "e-mail" = true -> includes l "mail" = true)
    by (apply includes_weaken; now exists "e-", "").
  assert (E3 : includes l "telefone" = true -> includes l "tel" = true)
    by (apply includes_weaken; now exists "", "efone").
  split; f_equal.
  - destruct (includes l "mail"), (includes l "email"), (includes l "e-mail");
      try reflexivity;
      (discriminate (E1 eq_refl) || discriminate (E2 eq_refl)).
  - destruct (includes l "tel"), (includes l "telefone");
      try (discriminate (E3 eq_refl));
      now destruct (includes l "phone"), (includes l "celular"),
        (includes l "mobile").
Qed.

End ClassifierFacts.

(* ================================================================== *)
(** * Phone normalisation: the three functions together *)
(* ================================================================== *)

Module NormalizationFacts.
Import JS World Monday ElevenLabs Spec Examples StringFacts ValueFacts
  EmailFacts PhoneFacts.

Lemma filter_string_id (p : ascii -> bool) (s : string) :
  forallb_string p s = true -> filter_string p s = s.
Proof.
  induction s as [|x s IH]; simpl; [reflexivity|].
  intros H. apply andb_true_iff in H as [Hx Hs]. now rewrite Hx, IH.
Qed.

Lemma startsWith_plus55 (s : string) : startsWith ("+55" ++ s) "+" = true.
Proof. apply (startsWith_plus "+"). Qed.

(** An extracted phone that does not start with [+] has twelve characters
    or more. *)
Lemma extractPhone_plus_or_long (v : jsval) (p : string) :
  extractPhone v = JStr p ->
  forallb_string (fun c => is_digit c || is_plus c) p = true
  /\ 10 <= String.length p
  /\ (startsWith p "+" = true \/ 12 <= String.length p).
Proof.
  intros E. pose proof (extractPhone_shape v) as S. rewrite E in S.
  destruct S as [L K]. split; [exact K|]. split; [exact L|].
  rewrite extractPhone_kept in E. unfold normalizePhone_kept in E.
  destruct (chosen_field v) as [| |b|n|raw|l|l]; try discriminate.
  set (kept := filter_string _ raw) in *.
  destruct (String.length kept <? 10)%nat; [discriminate|].
  destruct (Nat.leb_spec (String.length kept) 11) as [L11|L11];
    destruct (startsWith kept "+") eqn:P; cbn [andb negb] in E;
    inversion E; subst p; auto using startsWith_plus55.
Qed.

Lemma normalize_fixed (p : string) :
  forallb_string (fun c => is_digit c || is_plus c) p = true ->
  10 <= String.length p ->
  startsWith p "+" = true \/ 12 <= String.length p ->
  extractPhone (JStr p) = JStr p.
Proof.
  intros K L H. rewrite extractPhone_kept. unfold normalizePhone_kept.
  cbn [chosen_field]. rewrite (filter_string_id _ p K).
  destruct (Nat.ltb_spec (String.length p) 10); [lia|].
  destruct H as [-> | H].
  - now rewrite andb_false_r.
  - destruct (Nat.leb_spec (String.length p) 11); [lia | reflexivity].
Qed.

(** X3: phone extraction is idempotent: extracting from an extracted
    phone changes nothing (no second ["+55"] is ever added), and [null]
    stays [null]. *)
Theorem extractPhone_idempotent (v : jsval) :
  extractPhone (extractPhone v) = extractPhone v.
Proof.
  pose proof (extractPhone_shape v) as S.
  destruct (extractPhone v) as [| |b|n|p|l|l] eqn:E;
    try contradiction; [reflexivity|].
  destruct (extractPhone_plus_or_long v p E) as (K & L & H).
  now apply normalize_fixed.
Qed.

Lemma array_has_no_text (l : list jsval) :
  opt_get (JArr l) "text" = JUndefined /\ opt_get (JArr l) "value" = JUndefined.
Proof.
  unfold opt_get. simpl. now rewrite !index_of_name_none.
Qed.

(** Only strings and objects can carry a text. *)
Lemma non_object_has_no_text (v : jsval) :
  match v with
  | JStr _ | JObj _ => True
  | _ => is_string v = false
         /\ truthy (opt_get v "text") = false
         /\ truthy (opt_get v "value") = false
  end.
Proof.
  destruct v as [| |b|n|s|l|l]; try exact I; try (now repeat split).
  destruct (array_has_no_text l) as [-> ->]. now repeat split.
Qed.

(** X4: a value that is not a string and has neither a non-empty [text]
    nor a non-empty [value] is neither a phone nor an e-mail: both
    extractors return [null].  This covers numbers, booleans, arrays,
    [null] and [undefined], and objects without those fields. *)
Theorem extractors_need_text (v : jsval) :
  is_string v = false ->
  truthy (opt_get v "text") = false ->
  truthy (opt_get v "value") = false ->
  extractPhone v = JNull /\ extractEmail v = JNull.
Proof.
  intros S T V.
  assert (C : chosen_field v = JStr "").
  { unfold chosen_field. destruct v; try discriminate;
      now rewrite or_else3, T, V. }
  rewrite extractPhone_kept, extractEmail_chosen.
  unfold normalizePhone_kept. rewrite C. split; reflexivity.
Qed.

Lemma extractors_need_text_witness :
  extractPhone (JNum 11999999999) = JNull
  /\ extractEmail (JNum 11999999999) = JNull.
Proof.
  apply (extractors_need_text (JNum 11999999999)); reflexivity.
Defined.

(** X5: [formatPhone] and [extractPhone] agree on non-empty strings:
    extraction is formatting followed by the length test. *)
Theorem extractPhone_is_formatPhone_then_length (s : string) :
  s <> "" ->
  exists p,
    formatPhone (JStr s) = Ok (JStr p)
    /\ extractPhone (JStr s)
       = if (10 <=? String.length p)%nat then JStr p else JNull.
Proof.
  intros N.
  assert (T : truthy (JStr s) = true).
  { simpl. destruct (String.eqb_spec s ""); [contradiction | reflexivity]. }
  unfold formatPhone, extractPhone. rewrite T.
  cbn [negb is_string as_string rbind rcatch].
  eexists. split; [reflexivity|].
  match goal with |- context [if ?c then Ok _ else Ok _] => now destruct c end.
Qed.

Lemma extractPhone_is_formatPhone_then_length_witness :
  exists p,
    formatPhone (JStr "(11) 99999-9999") = Ok (JStr p)
    /\ extractPhone (JStr "(11) 99999-9999")
       = if (10 <=? String.length p)%nat then JStr p else JNull.
Proof.
  apply (extractPhone_is_formatPhone_then_length "(11) 99999-9999").
  discriminate.
Defined.

Lemma validatePhone_clean (p : string) :
  forallb_string (fun c => is_digit c || is_plus c) p = true ->
  validatePhone (JStr p)
  = Ok ((10 <=? String.length p)%nat && startsWith p "+").
Proof.
  intros K. unfold validatePhone. destruct p as [|c p]; [reflexivity|].
  cbn [truthy negb as_string rbind].
  replace (negb (String c p =? "")) with true
    by (now destruct (String.eqb_spec (String c p) "")).
  cbn [negb]. rewrite replace_nonDigitPlus, (filter_string_id _ _ K).
  reflexivity.
Qed.

(** X6: [validatePhone] accepts an extracted phone exactly when it starts
    with [+]; an extracted phone it rejects has at least twelve
    characters (a long number given without [+]), so every phone that
    [extractPhone] prefixed with ["+55"] validates. *)
Theorem validatePhone_of_extracted (v : jsval) (p : string) :
  extractPhone v = JStr p ->
  validatePhone (JStr p) = Ok (startsWith p "+")
  /\ (startsWith p "+" = false -> 12 <= String.length p).
Proof.
  intros E. destruct (extractPhone_plus_or_long v p E) as (K & L & H).
  rewrite (validatePhone_clean p K).
  apply Nat.leb_le in L. rewrite L. split; [reflexivity|].
  intros F. destruct H as [H|H]; [congruence | exact H].
Qed.

Lemma validatePhone_of_extracted_witness :
  validatePhone (JStr "123456789012") = Ok (startsWith "123456789012" "+")
  /\ (startsWith "123456789012" "+" = false
      -> 12 <= String.length "123456789012").
Proof.
  apply (validatePhone_of_extracted (JStr "123456789012") "123456789012").
  reflexivity.
Defined.

(** X7: unlike [extractPhone], [formatPhone] and [validatePhone] have no
    [try]: on a truthy argument that is not a string (a number, an object,
    an array, [true]) both throw a [TypeError]; on a falsy argument they
    return [null] and [false]. *)
Theorem formatPhone_validatePhone_non_string (v : jsval) :
  is_string v = false ->
  formatPhone v = (if truthy v then Throw TypeError else Ok JNull)
  /\ validatePhone v = (if truthy v then Throw TypeError else Ok false).
Proof.
  intros S. unfold formatPhone, validatePhone.
  destruct v as [| |b|n|s|l|l]; try discriminate; try (now split).
  - now destruct b.
  - simpl. now destruct ((n =? "0") || (n =? "NaN")).
Qed.

Lemma formatPhone_validatePhone_non_string_witness :
  formatPhone (JNum 11999999999)
  = (if truthy (JNum 11999999999) then Throw TypeError else Ok JNull)
  /\ validatePhone (JNum 11999999999)
     = (if truthy (JNum 11999999999) then Throw TypeError else Ok false).
Proof.
  apply (formatPhone_validatePhone_non_string (JNum 11999999999)).
  reflexivity.
Defined.

End NormalizationFacts.

(* ================================================================== *)
(** * The item fetched from Monday.com *)
(* ================================================================== *)

Module FetchFacts.
Import JS World Monday ElevenLabs Spec Examples StringFacts ValueFacts
  PhoneFacts NormalizerFacts.

Lemma isPhoneColumn_non_string (v : jsval) :
  is_string v = false -> isPhoneColumn v = Throw TypeError.
Proof. destruct v; try discriminate; reflexivity. Qed.

(** The callback throws on a column without a string identifier. *)
Lemma fetched_column_throws (column : jsval) (d : ItemData) :
  is_string (opt_get column "id") = false ->
  exists e, fetched_column column d = Throw e.
Proof.
  intros S. unfold fetched_column, get.
  destruct (nullish column); [now exists TypeError|].
  cbn [rbind].
  destruct (toString (opt_get column "id")) as [key|e]; [|now exists e].
  cbn [rbind]. rewrite (isPhoneColumn_non_string _ S). now exists TypeError.
Qed.

Lemma forEach_throws {A S : Type} (body : A -> S -> Res S)
  (l1 : list A) (x : A) (l2 : list A) :
  (forall s, exists e, body x s = Throw e) ->
  forall s, exists e, forEach (l1 ++ x :: l2) body s = Throw e.
Proof.
  intros H. induction l1 as [|y l1 IH]; intros s; simpl.
  - destruct (H s) as [e ->]. now exists e.
  - destruct (body y s) as [s'|e]; [apply IH | now exists e].
Qed.

(** X8: one column without a string identifier (a number, a missing
    [id], a [null] entry) anywhere in [column_values] makes
    [fetchItemDetails] return [null]: the whole item is discarded, also
    the name and the phone read from the columns before it.  The query
    was sent, unless the item identifier could not be put into its text. *)
Theorem malformed_column_discards_item
  (env : Env) (b i : jsval) (t : list Event)
  (data : jsval) (l1 : list jsval) (column : jsval) (l2 : list jsval) :
  monday_api env i = AxiosResponse data ->
  opt_get (opt_get (opt_get (opt_get data "data") "items") "0")
    "column_values" = JArr (l1 ++ column :: l2) ->
  is_string (opt_get column "id") = false ->
  fetchItemDetails env b i t = (Ok None, fetch_trace t i).
Proof.
  intros A C S.
  cbv [fetchItemDetails try_catch bind monday_post emit ret throw lift
       fetch_trace].
  destruct (toString i) as [q|e0]; [|reflexivity].
  rewrite A.
  match goal with
  | |- context [if ?c then _ else _] => destruct c
  end; [reflexivity|].
  rewrite C.
  destruct (get _ "id") as [id0|e]; [|reflexivity].
  cbn [rbind truthy as_array].
  match goal with
  | |- context [forEach _ _ ?init] =>
      destruct (forEach_throws fetched_column l1 column l2
                  (fun s => fetched_column_throws column s S) init)
        as [e ->]
  end.
  reflexivity.
Qed.

Lemma malformed_column_discards_item_witness :
  fetchItemDetails env_bad_column JUndefined (JNum 77) []
  = (Ok None, [MondayQuery (JNum 77)]).
Proof.
  apply (malformed_column_discards_item env_bad_column JUndefined (JNum 77) []
           item_answer_bad_column
           [JObj [("id", JStr "phone_1");
                  ("text", JStr "+5511888888888"); ("value", JNull)]]
           (JObj [("id", JNum 5); ("text", JStr "x"); ("value", JNull)])
           []); reflexivity.
Defined.

(** The callback keeps the phone normalised. *)
Lemma fetched_column_phone (column : jsval) (d d' : ItemData) :
  fetched_column column d = Ok d' ->
  phone_shaped (item_phone d) -> phone_shaped (item_phone d').
Proof.
  unfold fetched_column. intros E P.
  destruct (get column "id") as [id0|e]; [|discriminate].
  cbn [rbind] in E.
  destruct (toString id0) as [key|e]; [|discriminate].
  cbn [rbind] in E.
  destruct (isPhoneColumn id0) as [p|e]; [|discriminate].
  destruct (isEmailColumn id0) as [m|e]; [|discriminate].
  destruct (isCompanyColumn id0) as [c|e]; [|discriminate].
  cbn [rbind] in E. inversion E; subst d'. clear E.
  destruct (p && truthy (opt_get column "text")),
    (m && truthy (opt_get column "text")),
    (c && truthy (opt_get column "text")); cbn;
    try exact P; apply extractPhone_shape.
Qed.

Lemma forEach_fetched_phone (l : list jsval) :
  forall d d', forEach l fetched_column d = Ok d' ->
               phone_shaped (item_phone d) -> phone_shaped (item_phone d').
Proof.
  induction l as [|x l IH]; intros d d' E P; simpl in E.
  - now inversion E; subst.
  - destruct (fetched_column x d) as [d1|e] eqn:F; [|discriminate].
    cbn [rbind] in E.
    exact (IH d1 d' E (fetched_column_phone x d d1 F P)).
Qed.

(** The phone of a fetched item is [null] or normalised. *)
Lemma fetchItemDetails_phone
  (env : Env) (b i : jsval) (t t' : list Event) (d : ItemData) :
  fetchItemDetails env b i t = (Ok (Some d), t') ->
  phone_shaped (item_phone d).
Proof.
  cbv [fetchItemDetails try_catch bind monday_post emit ret throw lift].
  destruct (toString i) as [q|e0]; [|discriminate].
  destruct (monday_api env i) as [data|m r]; [|discriminate].
  match goal with
  | |- context [if ?c then _ else _] => destruct c
  end; [discriminate|].
  destruct (get _ "id") as [id0|e]; [|discriminate].
  cbn [rbind].
  destruct (truthy _).
  - destruct (as_array _) as [l|e]; [|discriminate].
    cbn [rbind].
    match goal with
    | |- context [forEach l fetched_column ?init] =>
        destruct (forEach l fetched_column init) as [d1|e] eqn:F;
          [|discriminate]
    end.
    cbn [rbind]. intros E. inversion E; subst d1.
    exact (forEach_fetched_phone l _ d F I).
  - intros E. inversion E; subst d. exact I.
Qed.

End FetchFacts.

(* ================================================================== *)
(** * The record the normaliser returns *)
(* ================================================================== *)

Module RecordFacts.
Import JS World Monday ElevenLabs Spec Examples StringFacts ValueFacts
  PhoneFacts NormalizerFacts ClassifierFacts FetchFacts.

Lemma webhook_column_keeps (cv : jsval) (k : string) (ld : LeadData) :
  id (webhook_column_independent cv k ld) = id ld
  /\ name (webhook_column_independent cv k ld) = name ld
  /\ source (webhook_column_independent cv k ld) = source ld.
Proof.
  unfold webhook_column_independent.
  now destruct (applied phoneKeywords cv k), (applied emailKeywords cv k),
    (applied companyKeywords cv k).
Qed.

Lemma forEach_webhook_keeps (cv : jsval) (l : list string) :
  forall ld ld',
    forEach l (webhook_column cv) ld = Ok ld' ->
    id ld' = id ld /\ name ld' = name ld /\ source ld' = source ld.
Proof.
  induction l as [|k l IH]; intros ld ld' E; simpl in E.
  - now inversion E.
  - rewrite webhook_column_Ok in E. cbn [rbind] in E.
    destruct (IH _ _ E) as (I & N & S).
    destruct (webhook_column_keeps cv k ld) as (I' & N' & S').
    rewrite I, N, S. auto.
Qed.

(** Identifier, name and source of the record of a recognized event. *)
Lemma processWebhook_identity (env : Env) (w : jsval) (t : list Event) :
  recognized (event_type w) = true ->
  exists d ld t',
    fetchItemDetails env (resolved_board w) (resolved_item w) t = (Ok d, t')
    /\ processWebhook env w t = (Ok (Some ld), t')
    /\ id ld = resolved_item w
               ||| JStr ("lead-" ++ string_of_Z (date_now env))
    /\ name ld = resolved_name w ||| opt_field item_name d
                 ||| JStr "Lead without name"
    /\ source ld = JStr "monday.com".
Proof.
  intros R. pose proof (recognized_not_nullish w R) as N.
  destruct (fetchItemDetails_returns env (resolved_board w) (resolved_item w) t)
    as [d F].
  exists d.
  cbv [processWebhook try_catch bind lift ret].
  rewrite (get_not_nullish w "event" N).
  unfold recognized, event_type in R.
  replace (negb (strict_eq_str (opt_get (opt_get w "event") "type")
                   "create_pulse")
           && negb (strict_eq_str (opt_get (opt_get w "event") "type")
                      "change_column_value"
                    || strict_eq_str (opt_get (opt_get w "event") "type")
                         "update_column_value"))
    with false
    by (destruct (strict_eq_str _ "create_pulse"),
          (strict_eq_str _ "change_column_value"),
          (strict_eq_str _ "update_column_value");
        simpl in *; congruence).
  fold (resolved_item w) (resolved_board w) (resolved_name w).
  rewrite F.
  destruct (truthy (opt_get w "columnValues")).
  - match goal with
    | |- context [forEach ?l ?f ?x] =>
        destruct (forEach_webhook_columns (opt_get w "columnValues") l x)
          as (ld & E & _);
        destruct (forEach_webhook_keeps _ l x ld E) as (I & M & S)
    end.
    rewrite E. exists ld. eexists. split; [reflexivity|].
    split; [reflexivity|]. auto.
  - do 2 eexists. repeat split; reflexivity.
Qed.

Lemma recognized_of_record (env : Env) (w : jsval) (t t' : list Event)
  (ld : LeadData) :
  processWebhook env w t = (Ok (Some ld), t') ->
  recognized (event_type w) = true.
Proof.
  intros P. destruct (recognized (event_type w)) eqn:R; [reflexivity|].
  rewrite (processWebhook_unrecognized env w t R) in P. discriminate.
Qed.

Lemma fetched_phone_or_null (d : option ItemData) :
  match d with Some x => phone_shaped (item_phone x) | None => True end ->
  phone_shaped (opt_field item_phone d ||| JNull).
Proof.
  destruct d as [x|]; [|intros _; exact I]. simpl.
  unfold or_else. destruct (item_phone x); simpl; try contradiction; auto.
  destruct (negb (s =? "")); auto. intros _. exact I.
Qed.

(** The phone of every returned record is [null] or normalised. *)
Lemma processWebhook_phone (env : Env) (w : jsval) (t t' : list Event)
  (ld : LeadData) :
  processWebhook env w t = (Ok (Some ld), t') -> phone_shaped (phone ld).
Proof.
  intros P. pose proof (recognized_of_record env w t t' ld P) as R.
  destruct (processWebhook_accepted env w t R)
    as (d & ld0 & F & P0 & Hp & _).
  cbv zeta in F, P0. rewrite P0 in P. inversion P; subst ld0. clear P.
  rewrite Hp. unfold webhook_over_fetch, overlay.
  destruct (last_applied phoneKeywords (column_map w)) as [v|].
  - apply extractPhone_shape.
  - apply fetched_phone_or_null. destruct d as [x|]; [|exact I].
    exact (fetchItemDetails_phone env _ _ t _ x F).
Qed.

(** X9: every record [processWebhook] returns has a truthy identifier (the
    resolved item identifier, or ["lead-"] and the clock reading), a
    truthy name (ending in ["Lead without name"]), the source
    ["monday.com"], and a phone that is [null] or a string of at least ten
    characters, digits and [+] only; so the relay's test [!leadData.phone]
    fails exactly on [null]. *)
Theorem record_invariants
  (env : Env) (w : jsval) (t t' : list Event) (ld : LeadData) :
  processWebhook env w t = (Ok (Some ld), t') ->
  truthy (id ld) = true
  /\ truthy (name ld) = true
  /\ source ld = JStr "monday.com"
  /\ phone_shaped (phone ld)
  /\ (truthy (phone ld) = false <-> phone ld = JNull).
Proof.
  intros P. pose proof (recognized_of_record env w t t' ld P) as R.
  pose proof (processWebhook_phone env w t t' ld P) as S.
  destruct (processWebhook_identity env w t R)
    as (d & ld0 & t0 & _ & P0 & I & N & Src).
  rewrite P0 in P. inversion P; subst ld0 t0. clear P.
  split; [|split; [|split; [exact Src|split; [exact S|]]]].
  - rewrite I. unfold or_else.
    now destruct (truthy (resolved_item w)) eqn:E.
  - rewrite N. unfold or_else.
    destruct (truthy (resolved_name w)) eqn:E1; rewrite ?E1; [reflexivity|].
    now destruct (truthy (opt_field item_name d)) eqn:E2.
  - destruct (phone ld) as [| |b|n|p|l|l]; simpl in S; try contradiction.
    + now split.
    + destruct S as [L _]. split; [|discriminate].
      simpl. destruct p; [simpl in L; lia | discriminate].
Qed.

Lemma record_invariants_witness :
  truthy (id lead_one_phone) = true
  /\ truthy (name lead_one_phone) = true
  /\ source lead_one_phone = JStr "monday.com"
  /\ phone_shaped (phone lead_one_phone)
  /\ (truthy (phone lead_one_phone) = false <-> phone lead_one_phone = JNull).
Proof.
  apply (record_invariants env_unconfigured body_one_phone []
           [MondayQuery (JNum 77)] lead_one_phone).
  reflexivity.
Defined.

Lemma string_of_uint_digits (d : Decimal.uint) :
  forallb_string is_digit (NilEmpty.string_of_uint d) = true.
Proof. induction d; simpl; auto. Qed.

Lemma string_of_nat_digits (n : nat) :
  forallb_string is_digit (string_of_nat n) = true.
Proof.
  unfold string_of_nat, NilZero.string_of_uint.
  destruct (Nat.to_uint n) eqn:E; try reflexivity;
    rewrite <- E; apply string_of_uint_digits.
Qed.

Lemma lower_char_digit (c : ascii) : is_digit c = true -> lower_char c = c.
Proof.
  unfold is_digit, lower_char, in_range. intros H.
  apply andb_true_iff in H as [L U].
  apply Nat.leb_le in L, U.
  destruct (Nat.leb_spec 65 (code c)); [lia|].
  destruct (Nat.leb_spec 192 (code c)); [lia|]. reflexivity.
Qed.

Lemma toLowerCase_digits (s : string) :
  forallb_string is_digit s = true -> toLowerCase s = s.
Proof.
  unfold toLowerCase. induction s as [|c s IH]; simpl; [reflexivity|].
  intros H. apply andb_true_iff in H as [Hc Hs].
  now rewrite (lower_char_digit c Hc), IH.
Qed.

(** An identifier made of digits has no keyword of any role. *)
Lemma has_keyword_digits (keywords : list string) (s : string) :
  forallb (fun k => negb (forallb_string is_digit k)) keywords = true ->
  forallb_string is_digit s = true ->
  has_keyword keywords s = false.
Proof.
  intros K D. destruct (has_keyword keywords s) eqn:H; [|reflexivity].
  apply has_keyword_occurs in H as (k & I & a & b & E).
  rewrite (toLowerCase_digits s D) in E. rewrite E in D.
  rewrite !forallb_string_app in D.
  apply andb_true_iff in D as [_ D]. apply andb_true_iff in D as [D _].
  rewrite forallb_forall in K. specialize (K k I). now rewrite D in K.
Qed.

Lemma no_index_applied (keywords : list string) (cv : jsval)
  (start len : nat) :
  forallb (fun k => negb (forallb_string is_digit k)) keywords = true ->
  filter (applied keywords cv) (map string_of_nat (seq start len)) = [].
Proof.
  intros K. revert start.
  induction len as [|n IH]; intros start; cbn [seq map filter];
    [reflexivity|].
  unfold applied at 1.
  rewrite (has_keyword_digits keywords _ K (string_of_nat_digits start)).
  cbn [andb]. apply IH.
Qed.

Lemma last_applied_non_object (keywords : list string) (cv : jsval) :
  forallb (fun k => negb (forallb_string is_digit k)) keywords = true ->
  is_object cv = false ->
  last_applied keywords cv = None.
Proof.
  intros K O. unfold last_applied, last_applied_in.
  destruct cv as [| |b|n|s|l|l]; try reflexivity; try discriminate;
    cbn [keys]; now rewrite no_index_applied.
Qed.

(** X10: a [columnValues] that is not an object (an array, a string, a
    number, absent) contributes nothing, because index names have no
    keyword: the record's phone, e-mail and company are the fetched ones,
    or [null]. *)
Theorem non_object_column_map_ignored
  (env : Env) (w : jsval) (t : list Event) :
  recognized (event_type w) = true ->
  is_object (column_map w) = false ->
  exists d ld t',
    fetchItemDetails env (resolved_board w) (resolved_item w) t = (Ok d, t')
    /\ processWebhook env w t = (Ok (Some ld), t')
    /\ phone ld = opt_field item_phone d ||| JNull
    /\ email ld = opt_field item_email d ||| JNull
    /\ company ld = opt_field item_company d ||| JNull.
Proof.
  intros R O.
  destruct (processWebhook_accepted env w t R)
    as (d & ld & F & P & Hp & He & Hc & _).
  exists d, ld, (fetch_trace t (resolved_item w)).
  rewrite Hp, He, Hc, !last_applied_non_object by (assumption || reflexivity).
  now repeat split.
Qed.

Lemma non_object_column_map_ignored_witness :
  exists d ld t',
    fetchItemDetails env_unconfigured (resolved_board body_columns_array)
      (resolved_item body_columns_array) [] = (Ok d, t')
    /\ processWebhook env_unconfigured body_columns_array []
       = (Ok (Some ld), t')
    /\ phone ld = opt_field item_phone d ||| JNull
    /\ email ld = opt_field item_email d ||| JNull
    /\ company ld = opt_field item_company d ||| JNull.
Proof.
  apply (non_object_column_map_ignored env_unconfigured body_columns_array []);
    reflexivity.
Defined.

(** X11: the company the call announces is the fetched item's
    [lead_company] column whenever that is non-empty, whatever company the
    webhook's column map supplied: on this variable the fetched value wins
    over the webhook's. *)
Theorem fetched_lead_company_wins
  (env : Env) (w : jsval) (t t' : list Event) (d : ItemData) :
  recognized (event_type w) = true ->
  fetchItemDetails env (resolved_board w) (resolved_item w) t
  = (Ok (Some d), t') ->
  truthy (columns_get (columns d) "lead_company") = true ->
  exists ld,
    processWebhook env w t = (Ok (Some ld), t')
    /\ company ld
       = webhook_over_fetch (last_applied companyKeywords (column_map w))
           company_text (item_company d)
    /\ company_name (dynamic_variables (prepareCallData env ld))
       = columns_get (columns d) "lead_company".
Proof.
  intros R F T.
  destruct (processWebhook_accepted env w t R)
    as (d' & ld & F' & P & _ & _ & Hc & M).
  cbv zeta in F', P. rewrite F in F'.
  assert (D : mcpData ld = Some d) by congruence.
  assert (E : t' = fetch_trace t (resolved_item w)) by congruence.
  subst t'. rewrite <- M, D in Hc.
  exists ld. split; [exact P|]. split; [exact Hc|].
  unfold prepareCallData, lead_company. cbn [dynamic_variables company_name].
  rewrite D, or_else3, T. reflexivity.
Qed.

Lemma fetched_lead_company_wins_witness :
  exists ld,
    processWebhook env_online body_company_column []
    = (Ok (Some ld), [MondayQuery (JNum 77)])
    /\ company ld
       = webhook_over_fetch
           (last_applied companyKeywords (column_map body_company_column))
           company_text (item_company fetched_item)
    /\ company_name (dynamic_variables (prepareCallData env_online ld))
       = columns_get (columns fetched_item) "lead_company".
Proof.
  apply (fetched_lead_company_wins env_online body_company_column []
           [MondayQuery (JNum 77)] fetched_item); reflexivity.
Defined.

(** The run on [body_company_column]: the record's company is the
    webhook's, the call's company is the fetched one. *)
Example company_column_run :
  exists ld t',
    processWebhook env_online body_company_column [] = (Ok (Some ld), t')
    /\ company ld = JStr "Webhook Ltda"
    /\ company_name (dynamic_variables (prepareCallData env_online ld))
       = JStr "ACME".
Proof.
  exists (set_company (set_phone lead_one_phone (JStr "+5511888888888"))
            (JStr "Webhook Ltda")), [MondayQuery (JNum 77)].
  repeat split; vm_compute; reflexivity.
Qed.

End RecordFacts.

(* ================================================================== *)
(** * Outcomes of a call *)
(* ================================================================== *)

Module CallOutcomes.
Import JS World Monday ElevenLabs Server Spec Examples ValueFacts
  NormalizerFacts CallFacts.

(** With credentials, [initiateCall] sends one request and answers by what
    came back. *)
Lemma initiateCall_configured (env : Env) (ld : LeadData) (t : list Event) :
  truthy (ELEVENLABS_API_KEY env) = true ->
  truthy (ELEVENLABS_AGENT_ID env) = true ->
  initiateCall env ld t
  = match elevenlabs_api env (prepareCallData env ld) with
    | AxiosResponse data =>
        (if nullish data then Throw TypeError
         else Ok (initiated_result env ld data),
         (t ++ [OutboundCall (prepareCallData env ld)])%list)
    | AxiosError m r =>
        (if message_includes (rethrown_error m r) "not configured"
         then Ok (simulateCall env ld)
         else Throw (rethrown_error m r),
         (t ++ [OutboundCall (prepareCallData env ld)])%list)
    end.
Proof.
  intros K A.
  cbv [initiateCall try_catch bind makeAPICall emit ret throw lift].
  rewrite K, A. cbn [negb orb].
  destruct (elevenlabs_api env (prepareCallData env ld)) as [data|m r].
  - unfold get. destruct (nullish data); reflexivity.
  - unfold rethrown_error, api_error_message.
    destruct (toString (opt_get r "status")) as [status|e]; cbn [rbind].
    2:{ now destruct (message_includes e "not configured"). }
    destruct (toString (opt_get (opt_get r "data") "detail" ||| JStr m))
      as [detail|e]; cbn [rbind].
    2:{ now destruct (message_includes e "not configured"). }
    now destruct (message_includes _ "not configured").
Qed.

(** What is rethrown when a conversion of the message template throws. *)
Lemma rethrown_error_TypeError (m : string) (r : jsval) (e : exn) :
  toString (opt_get r "status") = Throw e
  \/ toString (opt_get (opt_get r "data") "detail" ||| JStr m) = Throw e ->
  rethrown_error m r = TypeError.
Proof.
  unfold rethrown_error, api_error_message.
  destruct (toString (opt_get r "status")) as [status|e1] eqn:S;
    cbn [rbind].
  - intros [H|H]; [discriminate|]. rewrite H. cbn [rbind].
    exact (toString_throws_TypeError _ _ H).
  - intros _. exact (toString_throws_TypeError _ _ S).
Qed.

(** X12: with credentials present, a refusal by the provider whose
    rethrown message, ["ElevenLabs API Error: <status> - <detail or
    message>"] with the status and the detail converted to strings,
    contains ["not configured"] is reported as a simulated success:
    [initiateCall] returns the simulated result, flagged as simulation
    with a ["sim_"] identifier, although the request was sent and
    refused. *)
Theorem upstream_not_configured_is_simulated
  (env : Env) (ld : LeadData) (t : list Event) (m : string) (r : jsval)
  (status detail : string) :
  truthy (ELEVENLABS_API_KEY env) = true ->
  truthy (ELEVENLABS_AGENT_ID env) = true ->
  elevenlabs_api env (prepareCallData env ld) = AxiosError m r ->
  toString (opt_get r "status") = Ok status ->
  toString (opt_get (opt_get r "data") "detail" ||| JStr m) = Ok detail ->
  includes ("ElevenLabs API Error: " ++ status ++ " - " ++ detail)
    "not configured" = true ->
  initiateCall env ld t
  = (Ok (simulateCall env ld),
     (t ++ [OutboundCall (prepareCallData env ld)])%list)
  /\ simulation (simulateCall env ld) = JBool true
  /\ success (simulateCall env ld) = JBool true.
Proof.
  intros K A E S D I. rewrite (initiateCall_configured env ld t K A), E.
  unfold rethrown_error, api_error_message. rewrite S, D.
  cbn [rbind message_includes]. rewrite I.
  now repeat split.
Qed.

Lemma upstream_not_configured_is_simulated_witness :
  initiateCall env_provider_misconfigured lead_with_phone []
  = (Ok (simulateCall env_provider_misconfigured lead_with_phone),
     ([] ++ [OutboundCall
               (prepareCallData env_provider_misconfigured lead_with_phone)])
     %list)
  /\ simulation (simulateCall env_provider_misconfigured lead_with_phone)
     = JBool true
  /\ success (simulateCall env_provider_misconfigured lead_with_phone)
     = JBool true.
Proof.
  apply (upstream_not_configured_is_simulated env_provider_misconfigured
           lead_with_phone [] "Request failed with status code 400"
           (JObj [("status", JNum 400);
                  ("data", JObj [("detail",
                     JStr "Phone number not configured")])])
           "400" "Phone number not configured");
    reflexivity.
Defined.

(** A detail that cannot be converted is not simulated: the [TypeError]
    of the conversion leaves [initiateCall], whatever the upstream text. *)
Example unprintable_detail_not_simulated :
  initiateCall env_provider_unprintable lead_with_phone []
  = (Throw TypeError,
     [OutboundCall (prepareCallData env_provider_unprintable
                      lead_with_phone)]).
Proof. vm_compute. reflexivity. Qed.

End CallOutcomes.

(* ================================================================== *)
(** * Outcomes of a request to the relay *)
(* ================================================================== *)

Module RelayOutcomes.
Import JS World Monday ElevenLabs Server Spec Examples ValueFacts
  NormalizerFacts CallFacts RelayFacts RecordFacts CallOutcomes.

Lemma record_phone_truthy (env : Env) (w : jsval) (t t' : list Event)
  (ld : LeadData) :
  processWebhook env w t = (Ok (Some ld), t') ->
  phone ld <> JNull ->
  exists p, phone ld = JStr p /\ truthy (phone ld) = true
            /\ phone_shaped (JStr p).
Proof.
  intros P N. pose proof (processWebhook_phone env w t t' ld P) as S.
  destruct (phone ld) as [| |b|n|p|l|l]; simpl in S; try contradiction.
  exists p. split; [reflexivity|]. split; [|exact S].
  destruct S as [L _]. destruct p; [simpl in L; lia | reflexivity].
Qed.

Lemma calls_of_query (t : list Event) (i : jsval) :
  calls_of (t ++ [MondayQuery i]) = calls_of t.
Proof. unfold calls_of. rewrite flat_map_app. simpl. apply app_nil_r. Qed.

Lemma calls_of_call (t : list Event) (c : CallData) :
  calls_of (t ++ [OutboundCall c]) = (calls_of t ++ [c])%list.
Proof. unfold calls_of. now rewrite flat_map_app. Qed.

Lemma calls_of_fetch_trace (t : list Event) (i : jsval) :
  calls_of (fetch_trace t i) = calls_of t.
Proof.
  unfold fetch_trace. destruct (toString i); [|reflexivity].
  apply calls_of_query.
Qed.

Lemma record_trace (env : Env) (w : jsval) (t t' : list Event)
  (ld : LeadData) :
  processWebhook env w t = (Ok (Some ld), t') ->
  nullish w = false /\ t' = fetch_trace t (resolved_item w).
Proof.
  intros P. pose proof (recognized_of_record env w t t' ld P) as R.
  split; [now apply recognized_not_nullish|].
  destruct (processWebhook_accepted env w t R) as (d & ld0 & _ & P0 & _).
  cbv zeta in P0. congruence.
Qed.

(** With a record that has a phone the handler answers by the outcome of
    [initiateCall]. *)
Lemma webhook_monday_calling (env : Env) (w : jsval) (t t' : list Event)
  (ld : LeadData) :
  truthy (opt_get w "challenge") = false ->
  processWebhook env w t = (Ok (Some ld), t') ->
  phone ld <> JNull ->
  webhook_monday env w t
  = match initiateCall env ld t' with
    | (Ok r, t'') => (Ok (response_call_started (id ld) (call_id r)), t'')
    | (Throw e, t'') => (Ok (response_error e), t'')
    end.
Proof.
  intros C P N.
  destruct (record_trace env w t t' ld P) as [Nw _].
  destruct (record_phone_truthy env w t t' ld P N) as (p & _ & T & _).
  cbv [webhook_monday try_catch bind lift ret].
  rewrite (get_not_nullish w "challenge" Nw), C, P, T. cbn [negb].
  destruct (initiateCall env ld t') as [[r|e] t'']; reflexivity.
Qed.

(** X13: when the provider refuses or cannot be reached, the relay
    answers 500 after the one request to the provider was sent.  When the
    status and the detail (or, without detail, the message) of the refusal
    convert to strings and the text
    ["ElevenLabs API Error: <status> - <detail or message>"] does not
    mention ["not configured"], that text is the message of the response;
    when one of the two conversions throws, the message is that of the
    [TypeError]. *)
Theorem provider_failure_answers_500
  (env : Env) (w : jsval) (t t' : list Event) (ld : LeadData)
  (m : string) (r : jsval) :
  truthy (opt_get w "challenge") = false ->
  processWebhook env w t = (Ok (Some ld), t') ->
  phone ld <> JNull ->
  truthy (ELEVENLABS_API_KEY env) = true ->
  truthy (ELEVENLABS_AGENT_ID env) = true ->
  elevenlabs_api env (prepareCallData env ld) = AxiosError m r ->
  (forall status detail,
     toString (opt_get r "status") = Ok status ->
     toString (opt_get (opt_get r "data") "detail" ||| JStr m)
     = Ok detail ->
     includes ("ElevenLabs API Error: " ++ status ++ " - " ++ detail)
       "not configured" = false ->
     webhook_monday env w t
     = (Ok (response_error
              (Error ("ElevenLabs API Error: " ++ status ++ " - "
                      ++ detail))),
        (t' ++ [OutboundCall (prepareCallData env ld)])%list))
  /\ (forall e,
        toString (opt_get r "status") = Throw e
        \/ toString (opt_get (opt_get r "data") "detail" ||| JStr m)
           = Throw e ->
        webhook_monday env w t
        = (Ok (response_error TypeError),
           (t' ++ [OutboundCall (prepareCallData env ld)])%list)).
Proof.
  intros C P N K A E.
  rewrite (webhook_monday_calling env w t t' ld C P N).
  rewrite (initiateCall_configured env ld t' K A), E.
  split.
  - intros status detail S D I.
    unfold rethrown_error, api_error_message. rewrite S, D.
    cbn [rbind message_includes]. now rewrite I.
  - intros e H. now rewrite (rethrown_error_TypeError m r e H).
Qed.

Lemma provider_failure_answers_500_witness :
  webhook_monday env_provider_down body_one_phone []
  = (Ok (response_error
           (Error "ElevenLabs API Error: undefined - Network Error")),
     [MondayQuery (JNum 77);
      OutboundCall (prepareCallData env_provider_down lead_one_phone)]).
Proof.
  refine (proj1 (provider_failure_answers_500 env_provider_down
                   body_one_phone [] [MondayQuery (JNum 77)] lead_one_phone
                   "Network Error" JUndefined _ _ _ _ _ _)
            "undefined" "Network Error" _ _ _);
    try reflexivity.
  discriminate.
Defined.

(** The rethrown error on three refusals: no response at all, a status
    that prints in exponent form, and a detail that has a [toString] of
    its own. *)
Example rethrown_error_runs :
  rethrown_error "Network Error" JUndefined
  = Error "ElevenLabs API Error: undefined - Network Error"
  /\ rethrown_error "Request failed"
       (JObj [("status", JNum 400); ("data", JObj [("detail",
          JNumber "1e+21")])])
     = Error "ElevenLabs API Error: 400 - 1e+21"
  /\ rethrown_error "Request failed"
       (JObj [("status", JNum 400);
              ("data", JObj [("detail", JObj [("toString", JNum 1)])])])
     = TypeError.
Proof. repeat split. Qed.

(** X14: when the provider answers, the relay answers 200 with the
    record's identifier and, as call identifier, the answer's [call_id]
    or else its [id]; exactly one request went to the provider, built by
    [prepareCallData] from the record. *)
Theorem provider_success_answers_200
  (env : Env) (w : jsval) (t t' : list Event) (ld : LeadData) (data : jsval) :
  truthy (opt_get w "challenge") = false ->
  processWebhook env w t = (Ok (Some ld), t') ->
  phone ld <> JNull ->
  truthy (ELEVENLABS_API_KEY env) = true ->
  truthy (ELEVENLABS_AGENT_ID env) = true ->
  elevenlabs_api env (prepareCallData env ld) = AxiosResponse data ->
  nullish data = false ->
  webhook_monday env w t
  = (Ok (response_call_started (id ld)
           (opt_get data "call_id" ||| opt_get data "id")),
     (t' ++ [OutboundCall (prepareCallData env ld)])%list)
  /\ calls_of (t' ++ [OutboundCall (prepareCallData env ld)])
     = (calls_of t ++ [prepareCallData env ld])%list.
Proof.
  intros C P N K A E D.
  rewrite (webhook_monday_calling env w t t' ld C P N).
  rewrite (initiateCall_configured env ld t' K A), E, D.
  split; [reflexivity|].
  destruct (record_trace env w t t' ld P) as [_ ->].
  now rewrite calls_of_call, calls_of_fetch_trace.
Qed.

Lemma provider_success_answers_200_witness :
  webhook_monday env_online body_one_phone []
  = (Ok (response_call_started (id lead_one_phone)
           (opt_get (JObj [("call_id", JStr "c-1")]) "call_id"
            ||| opt_get (JObj [("call_id", JStr "c-1")]) "id")),
     ([MondayQuery (JNum 77)]
      ++ [OutboundCall (prepareCallData env_online lead_one_phone)])%list)
  /\ calls_of ([MondayQuery (JNum 77)]
               ++ [OutboundCall (prepareCallData env_online lead_one_phone)])
     = (calls_of [] ++ [prepareCallData env_online lead_one_phone])%list.
Proof.
  apply (provider_success_answers_200 env_online body_one_phone []
           [MondayQuery (JNum 77)] lead_one_phone
           (JObj [("call_id", JStr "c-1")]));
    try reflexivity.
  discriminate.
Defined.

(** X15: without credentials a lead with a phone still gets the success
    answer, with the call identifier ["sim_"] and the clock reading, and
    no request goes to the provider: the answer differs from that for a
    real call only by that identifier. *)
Theorem unconfigured_relay_simulates
  (env : Env) (w : jsval) (t t' : list Event) (ld : LeadData) :
  truthy (opt_get w "challenge") = false ->
  processWebhook env w t = (Ok (Some ld), t') ->
  phone ld <> JNull ->
  truthy (ELEVENLABS_API_KEY env) = false
  \/ truthy (ELEVENLABS_AGENT_ID env) = false ->
  webhook_monday env w t
  = (Ok (response_call_started (id ld)
           (JStr ("sim_" ++ string_of_Z (date_now env)))), t')
  /\ calls_of t' = calls_of t.
Proof.
  intros C P N H.
  rewrite (webhook_monday_calling env w t t' ld C P N).
  rewrite (initiateCall_unconfigured env ld t' H).
  split; [reflexivity|].
  destruct (record_trace env w t t' ld P) as [_ ->].
  apply calls_of_fetch_trace.
Qed.

Lemma unconfigured_relay_simulates_witness :
  webhook_monday env_unconfigured body_one_phone []
  = (Ok (response_call_started (id lead_one_phone)
           (JStr ("sim_" ++ string_of_Z (date_now env_unconfigured)))),
     [MondayQuery (JNum 77)])
  /\ calls_of [MondayQuery (JNum 77)] = calls_of [].
Proof.
  apply (unconfigured_relay_simulates env_unconfigured body_one_phone []
           [MondayQuery (JNum 77)] lead_one_phone); try reflexivity.
  - discriminate.
  - left. reflexivity.
Defined.

(** X16: a body with a truthy [challenge] is answered with that challenge
    alone and nothing else happens: no query to Monday.com and no call,
    even when the body is also a recognized event with a phone. *)
Theorem challenge_is_echoed (env : Env) (w : jsval) (t : list Event) :
  truthy (opt_get w "challenge") = true ->
  webhook_monday env w t
  = (Ok (response_challenge (opt_get w "challenge")), t).
Proof.
  intros C.
  assert (N : nullish w = false) by (destruct w; try reflexivity; discriminate).
  cbv [webhook_monday bind lift ret].
  now rewrite (get_not_nullish w "challenge" N), C.
Qed.

Lemma challenge_is_echoed_witness :
  webhook_monday env_online body_challenge []
  = (Ok (response_challenge (opt_get body_challenge "challenge")), []).
Proof.
  apply (challenge_is_echoed env_online body_challenge []). reflexivity.
Defined.

Lemma processWebhook_returns (env : Env) (w : jsval) (t : list Event) :
  exists r t', processWebhook env w t = (Ok r, t').
Proof.
  destruct (recognized (event_type w)) eqn:R.
  - destruct (processWebhook_accepted env w t R) as (d & ld & _ & P & _).
    cbv zeta in P. eauto.
  - rewrite (processWebhook_unrecognized env w t R). eauto.
Qed.

(** Every way a request with a body can end. *)
Lemma webhook_monday_outcomes (env : Env) (w : jsval) (t : list Event) :
  nullish w = false ->
  webhook_monday env w t
  = (Ok (response_challenge (opt_get w "challenge")), t)
  \/ webhook_monday env w t = (Ok response_invalid, t)
  \/ exists ld,
       let t1 := fetch_trace t (resolved_item w) in
       let t2 := (t1 ++ [OutboundCall (prepareCallData env ld)])%list in
       processWebhook env w t = (Ok (Some ld), t1)
       /\ (webhook_monday env w t = (Ok response_no_phone, t1)
           \/ (phone ld <> JNull
               /\ exists x,
                    webhook_monday env w t
                    = (Ok (response_call_started (id ld) x), t1))
           \/ (phone ld <> JNull
               /\ exists resp,
                    webhook_monday env w t = (Ok resp, t2)
                    /\ (status_code resp = 200 \/ status_code resp = 500))).
Proof.
  intros N.
  destruct (truthy (opt_get w "challenge")) eqn:C.
  { left. cbv [webhook_monday bind lift ret].
    now rewrite (get_not_nullish w "challenge" N), C. }
  right.
  destruct (processWebhook_returns env w t) as (r & t' & P).
  destruct r as [ld|].
  2:{ left. destruct (recognized (event_type w)) eqn:R.
      - destruct (processWebhook_accepted env w t R) as (d & ld & _ & P0 & _).
        cbv zeta in P0. congruence.
      - rewrite (processWebhook_unrecognized env w t R) in P.
        inversion P; subst t'.
        apply (webhook_monday_rejected env w t t N C).
        apply (processWebhook_unrecognized env w t R). }
  right. exists ld. cbv zeta.
  destruct (record_trace env w t t' ld P) as [_ E]. subst t'.
  split; [exact P|].
  destruct (truthy (phone ld)) eqn:T.
  2:{ left. cbv [webhook_monday try_catch bind lift ret].
      now rewrite (get_not_nullish w "challenge" N), C, P, T. }
  right.
  assert (Ph : phone ld <> JNull) by (intros E; now rewrite E in T).
  rewrite (webhook_monday_calling env w t _ ld C P Ph).
  destruct (truthy (ELEVENLABS_API_KEY env)) eqn:K.
  2:{ left. split; [exact Ph|].
      rewrite (initiateCall_unconfigured env ld _ (or_introl K)). eauto. }
  destruct (truthy (ELEVENLABS_AGENT_ID env)) eqn:A.
  2:{ left. split; [exact Ph|].
      rewrite (initiateCall_unconfigured env ld _ (or_intror A)). eauto. }
  right. split; [exact Ph|].
  rewrite (initiateCall_configured env ld _ K A).
  destruct (elevenlabs_api env (prepareCallData env ld)) as [data|m r].
  - destruct (nullish data); eexists; (split; [reflexivity|]); auto.
  - destruct (message_includes (rethrown_error m r) "not configured");
      eexists; (split; [reflexivity|]); auto.
Qed.

(** X17: whatever the body and the environment, one request to the relay
    sends at most one call to the provider; and a call that is sent goes to
    the record's phone, a string of at least ten characters made of digits
    and [+], under the record's own name (the ["Customer"] default is never
    used on this path, the name being non-empty).  The call comes after
    the fetch, whether or not the fetch sent its query. *)
Theorem at_most_one_normalised_call
  (env : Env) (w : jsval) (t : list Event) :
  calls_of (snd (webhook_monday env w t)) = calls_of t
  \/ exists ld p,
       processWebhook env w t
       = (Ok (Some ld), fetch_trace t (resolved_item w))
       /\ snd (webhook_monday env w t)
          = (fetch_trace t (resolved_item w)
             ++ [OutboundCall (prepareCallData env ld)])%list
       /\ calls_of (snd (webhook_monday env w t))
          = (calls_of t ++ [prepareCallData env ld])%list
       /\ to_number (prepareCallData env ld) = JStr p
       /\ phone_shaped (JStr p)
       /\ customer_name (dynamic_variables (prepareCallData env ld))
          = name ld
       /\ truthy (name ld) = true.
Proof.
  destruct (nullish w) eqn:N.
  { left. cbv [webhook_monday bind lift]. unfold get. now rewrite N. }
  destruct (webhook_monday_outcomes env w t N)
    as [E|[E|(ld & P & [E|[(Ph & x & E)|(Ph & resp & E & _)]])]];
    cbv zeta in *; rewrite E; cbn [snd];
    try (left; now rewrite ?calls_of_fetch_trace).
  right.
  destruct (record_phone_truthy env w t _ ld P Ph) as (p & Ep & _ & S).
  assert (T : truthy (name ld) = true).
  { pose proof (recognized_of_record env w t _ ld P) as R.
    destruct (processWebhook_identity env w t R)
      as (d & ld0 & t0 & _ & P0 & _ & Nm & _).
    assert (ld0 = ld) by congruence. subst ld0.
    rewrite Nm. unfold or_else.
    destruct (truthy (resolved_name w)) eqn:E1; rewrite ?E1; [reflexivity|].
    now destruct (truthy (opt_field item_name d)) eqn:E2. }
  exists ld, p. split; [exact P|]. split; [reflexivity|].
  split; [now rewrite calls_of_call, calls_of_fetch_trace|].
  split; [exact Ep|]. split; [exact S|].
  split; [|exact T].
  unfold prepareCallData. cbn [dynamic_variables customer_name].
  unfold or_else. now rewrite T.
Qed.

(** The run on [body_unprintable_item]: the item identifier has a
    [toString] of its own, no query is sent, and the call is placed to the
    webhook's phone under the default name. *)
Example unprintable_item_run :
  fetch_trace [] (resolved_item body_unprintable_item) = []
  /\ snd (webhook_monday env_online body_unprintable_item [])
     = [OutboundCall
          {| agent_id := JStr "agent";
             agent_phone_number_id := JStr "default_phone_id";
             to_number := JStr "+5511999999999";
             dynamic_variables :=
               {| customer_name := JStr "Lead without name";
                  company_name := JStr "your restaurant" |} |}].
Proof. split; vm_compute; reflexivity. Qed.

(** X18: the relay answers every request that has a body, with status
    200, 400 or 500; nothing thrown by the normaliser or the call leaves
    the handler. *)
Theorem webhook_monday_always_answers
  (env : Env) (w : jsval) (t : list Event) :
  nullish w = false ->
  exists resp t',
    webhook_monday env w t = (Ok resp, t')
    /\ (status_code resp = 200 \/ status_code resp = 400
        \/ status_code resp = 500).
Proof.
  intros N.
  destruct (webhook_monday_outcomes env w t N)
    as [E|[E|(ld & P & [E|[(Ph & x & E)|(Ph & resp & E & S)]])]];
    cbv zeta in *; rewrite E; do 2 eexists; (split; [reflexivity|]);
    auto; destruct S as [S|S]; auto.
Qed.

Lemma webhook_monday_always_answers_witness :
  exists resp t',
    webhook_monday env_provider_down body_one_phone [] = (Ok resp, t')
    /\ (status_code resp = 200 \/ status_code resp = 400
        \/ status_code resp = 500).
Proof.
  apply (webhook_monday_always_answers env_provider_down body_one_phone []).
  reflexivity.
Defined.

(** X19: a request without a body ([undefined] or [null]) is handled
    differently by the three POST handlers: [/webhook/monday] reads the
    challenge outside its [try] and throws out of the handler, while
    [/test/call] and [/webhook/elevenlabs] answer 500; none sends a
    request. *)
Theorem missing_body_handling (env : Env) (w : jsval) (t : list Event) :
  nullish w = true ->
  webhook_monday env w t = (Throw TypeError, t)
  /\ test_call env w t = (Ok (response_test_error TypeError), t)
  /\ webhook_elevenlabs env w t = (Ok (response_error TypeError), t).
Proof.
  intros N.
  cbv [webhook_monday test_call webhook_elevenlabs try_catch bind lift ret].
  unfold get. rewrite N. now repeat split.
Qed.

Lemma missing_body_handling_witness :
  webhook_monday env_online JUndefined [] = (Throw TypeError, [])
  /\ test_call env_online JUndefined []
     = (Ok (response_test_error TypeError), [])
  /\ webhook_elevenlabs env_online JUndefined []
     = (Ok (response_error TypeError), []).
Proof.
  apply (missing_body_handling env_online JUndefined []). reflexivity.
Defined.

(** X20: the manual trigger passes the phone of the body to the provider
    as it is, without normalising or validating it, under the name of the
    body (["Teste"] when empty) and always with the fallback company; a
    body without phone is answered 400 and nothing is sent. *)
Theorem test_call_sends_phone_verbatim
  (env : Env) (w : jsval) (t : list Event) :
  nullish w = false ->
  truthy (ELEVENLABS_API_KEY env) = true ->
  truthy (ELEVENLABS_AGENT_ID env) = true ->
  (truthy (opt_get w "phone") = true ->
   snd (test_call env w t)
   = (t ++ [OutboundCall (test_call_request env w)])%list)
  /\ (truthy (opt_get w "phone") = false ->
      test_call env w t = (Ok response_phone_required, t)).
Proof.
  intros N K A. split; intros P;
    cbv [test_call try_catch bind lift ret];
    rewrite (get_not_nullish w "phone" N), P; cbn [negb]; [|reflexivity].
  rewrite (initiateCall_configured env _ t K A).
  match goal with
  | |- context [prepareCallData env ?lead] =>
      assert (E : prepareCallData env lead = test_call_request env w)
  end.
  { unfold prepareCallData, test_call_request, lead_company, or_else.
    cbn [name company mcpData phone truthy].
    destruct (truthy (opt_get w "name")) eqn:T; now rewrite ?T. }
  rewrite E.
  destruct (elevenlabs_api env (test_call_request env w)) as [data|m r].
  - now destruct (nullish data).
  - now destruct (message_includes (rethrown_error m r) "not configured").
Qed.

Lemma test_call_sends_phone_verbatim_witness :
  (truthy (opt_get body_test_call "phone") = true ->
   snd (test_call env_online body_test_call [])
   = ([] ++ [OutboundCall (test_call_request env_online body_test_call)])%list)
  /\ (truthy (opt_get body_test_call "phone") = false ->
      test_call env_online body_test_call []
      = (Ok response_phone_required, [])).
Proof.
  apply (test_call_sends_phone_verbatim env_online body_test_call []);
    reflexivity.
Defined.

(** The run on [body_test_call]: the text ["not a phone"] is what the
    provider is asked to call. *)
Example test_call_run :
  to_number (test_call_request env_online body_test_call)
  = JStr "not a phone"
  /\ exists resp,
       test_call env_online body_test_call []
       = (Ok resp,
          [OutboundCall (test_call_request env_online body_test_call)])
       /\ status_code resp = 200.
Proof. split; [reflexivity|]. eexists. split; reflexivity. Qed.

End RelayOutcomes.
